(** * VT_tools: adaptive smoothing (ASM.py) and virtual trajectories
      (virtual_trajectory_generation.py, VT.py)

    Conventions of the embedding.
    - [ASM]: Python and NumPy floats are binary64 numbers, Rocq's primitive
      [float] with its IEEE 754 operations (round to nearest, ties to even;
      signed zeros, infinities, NaN).  [np.exp] and [np.tanh] are library
      code: the definitions take them as parameters, the general theorems
      hold for every choice of them (with the facts they need stated as
      hypotheses), and the examples use a table of their values at the
      arguments that occur.  Python's builtin [sum] is a left fold from 0.
    - [VT]: the integrator only adds, multiplies, divides, compares and
      rounds; its floats are read as exact rationals (so it stays executable
      and its loop can be reasoned about), with NaN as [None] of [option Q]:
      every comparison with NaN is false and every operation on NaN gives
      NaN.  Rounding of the binary64 operations is not modelled there, with
      one exception: [round(1/traj_hz, 2)] is computed on the binary64
      quotient.  The statements about [VT] are about the order of the
      operations, the loop guard, the propagation of NaN and the cached
      window; example runs stay away from inputs on which binary64 rounding
      decides a comparison.
    - [scipy.interpolate.griddata] is not part of the repository; it is a
      parameter of the development, with NaN as its "no estimate" result.
      SciPy raises on an empty or degenerate neighbourhood; a call that
      raises is not a returned run, and the examples use neighbourhoods
      with at least three points that are not on a line.
    - The [while] loop of [gen_VT] carries a loop budget (fuel); running out
      of it is the outcome [OutOfFuel], distinct from returning.
    - pandas DataFrames are objects of a store (a finite map from references
      to frames); [copy] allocates, assignments to [columns] and to a column
      update the object in place. *)

From Stdlib Require Import QArith Qround Qabs ZArith Psatz List Bool Floats.
From stdpp Require Import gmap strings.
Import ListNotations.
Set Warnings "-inexact-float".

(** ** ASM.py *)
Module ASM.
Local Open Scope float_scope.

(** Outcome of a kernel call: a weight, or the [ZeroDivisionError] of a
    Python float division. *)
Inductive raised (A : Type) : Type :=
| Returned (a : A)
| ZeroDivisionError.
Arguments Returned {A} a.
Arguments ZeroDivisionError {A}.

(** Default characteristic speeds (keyword defaults of the two kernels). *)
Definition c_free_default : float := -43.
Definition c_cong_default : float := 13.

(** A row of [speed_raw_df] (columns [t], [x], [speed]). *)
Record Obs : Type := mkObs { ob_t : float; ob_x : float; ob_speed : float }.

(** A row of the frame [speed] once the columns [beta_free] and [beta_cong]
    have been added (lines 110-111). *)
Record WObs : Type :=
  mkWObs { beta_free : float; beta_cong : float; w_speed : float }.

(** [a != b] on floats: true also when one of them is NaN. *)
Definition fneq (a b : float) : bool := negb (a =? b).

(** Python's builtin [sum]: a left fold from 0. *)
Definition py_sum (l : list float) : float := fold_left add l 0.

(** Python's builtin [min] and [max] of two numbers: the first one unless
    the second is strictly smaller (larger). *)
Definition py_min (a b : float) : float := if b <? a then b else a.

(** The boolean mask of line 105. *)
Definition in_box (x t smooth_x_window smooth_t_window : float) (v : Obs)
    : bool :=
  (abs (ob_t v - t) <=? smooth_t_window / 2)
  && (abs (ob_x v - x) <=? smooth_x_window / 2).

Definition sum_free (speed : list WObs) : float := py_sum (map beta_free speed).
Definition sum_cong (speed : list WObs) : float := py_sum (map beta_cong speed).

(** The two weight-normalised averages of lines 113 and 114. *)
Definition avg_free (speed : list WObs) : float :=
  py_sum (map (fun v => beta_free v * w_speed v) speed) / sum_free speed.
Definition avg_cong (speed : list WObs) : float :=
  py_sum (map (fun v => beta_cong v * w_speed v) speed) / sum_cong speed.

(** Lines 107-114: the pair [(EGTF_v_free, EGTF_v_cong)]. *)
Definition EGTF_regimes (speed : list WObs) : float * float :=
  if fneq (sum_free speed) 0 && fneq (sum_cong speed) 0
  then (avg_free speed, avg_cong speed)
  else (80, 80).

Section Numpy.

(** [np.exp] and [np.tanh] on binary64 numbers. *)
Variables np_exp np_tanh : float -> float.

(** The body shared by the two kernels (lines 43-45 and 75-77), for a
    characteristic speed [c]. *)
Definition kernel (x t x_s t_s x_win t_win c : float) : float :=
  let dt := t - t_s - 3600 * (x - x_s) / c in
  let dx := x - x_s in
  np_exp (- (2 * abs dx / x_win + 2 * abs dt / t_win)).

(** [beta_free_flow(x, t, x_s, t_s, x_win, t_win, c_free=-43)] on Python
    floats: the division by a zero [c_free] raises. *)
Definition beta_free_flow (x t x_s t_s x_win t_win c_free : float)
    : raised float :=
  if c_free =? 0 then ZeroDivisionError
  else Returned (kernel x t x_s t_s x_win t_win c_free).

(** [beta_cong_flow(x, t, x_s, t_s, x_win, t_win, c_cong=13)] *)
Definition beta_cong_flow (x t x_s t_s x_win t_win c_cong : float)
    : raised float :=
  if c_cong =? 0 then ZeroDivisionError
  else Returned (kernel x t x_s t_s x_win t_win c_cong).

(** Lines 105-111: restrict to the box and attach both weight columns; the
    kernels are called with their default characteristic speeds, which are
    not zero. *)
Definition EGTF_rows (x t smooth_x_window smooth_t_window : float)
    (speed_raw_df : list Obs) : list WObs :=
  map (fun v =>
         mkWObs
           (kernel x t (ob_x v) (ob_t v)
              smooth_x_window smooth_t_window c_free_default)
           (kernel x t (ob_x v) (ob_t v)
              smooth_x_window smooth_t_window c_cong_default)
           (ob_speed v))
      (List.filter (in_box x t smooth_x_window smooth_t_window) speed_raw_df).

(** Lines 115-118. *)
Definition EGTF_mix (EGTF_v_free EGTF_v_cong : float) : float :=
  let v := py_min EGTF_v_free EGTF_v_cong in
  let tanh_term := np_tanh ((36 - v) / 12.43) in
  let w := 0.5 * (1 + tanh_term) in
  w * EGTF_v_cong + (1 - w) * EGTF_v_free.

(** Lines 107-118 on the weighted frame. *)
Definition EGTF_blend (speed : list WObs) : float :=
  let '(EGTF_v_free, EGTF_v_cong) := EGTF_regimes speed in
  EGTF_mix EGTF_v_free EGTF_v_cong.

(** [EGTF(x, t, smooth_x_window, smooth_t_window, speed_raw_df)] *)
Definition EGTF (x t smooth_x_window smooth_t_window : float)
    (speed_raw_df : list Obs) : float :=
  EGTF_blend (EGTF_rows x t smooth_x_window smooth_t_window speed_raw_df).

End Numpy.

(** The number that a kernel hands to [np.exp]. *)
Definition kernel_argument (x t x_s t_s x_win t_win c : float) : float :=
  - (2 * abs (x - x_s) / x_win
     + 2 * abs (t - t_s - 3600 * (x - x_s) / c) / t_win).

(** A row of the raw table given to [smooth_raw_data] (columns relabelled
    [t_index], [x_index], [speed]); a missing value is NaN. *)
Record RawRow : Type :=
  mkRaw { raw_t_index : float; raw_x_index : float; raw_speed : float }.

(** A row of the table returned by [smooth_raw_data], with its final labels
    [t], [x], [raw_speed], [time], [milemarker], [speed]. *)
Record SmoothRow : Type :=
  mkSmooth { out_t : float; out_x : float; out_raw_speed : float;
             out_time : float; out_milemarker : float; out_speed : float }.

(** [EGTF_speed.dropna()]: the rows without a NaN cell, seen through the
    columns [t], [x], [speed] that [EGTF] reads. *)
Definition dropna (dx dt : float) (EGTF_speed : list RawRow) : list Obs :=
  flat_map
    (fun v =>
       let t := dt * raw_t_index v in
       let x := dx * raw_x_index v + 58.7 in
       if is_nan (raw_t_index v) || is_nan (raw_x_index v)
          || is_nan (raw_speed v) || is_nan t || is_nan x
       then []
       else [mkObs t x (raw_speed v)])
    EGTF_speed.

Section Smoothing.

Variables np_exp np_tanh : float -> float.

(** [smooth_raw_data(speed_raw, dx, dt, smooth_x_window=0.15,
    smooth_t_window=36)] *)
Definition smooth_raw_data (speed_raw : list RawRow)
    (dx dt smooth_x_window smooth_t_window : float) : list SmoothRow :=
  let speed_raw_df := dropna dx dt speed_raw in
  map (fun v =>
         let t := dt * raw_t_index v in
         let x := dx * raw_x_index v + 58.7 in
         mkSmooth (raw_t_index v) (raw_x_index v) (raw_speed v) t x
           (EGTF np_exp np_tanh x t smooth_x_window smooth_t_window
              speed_raw_df))
      speed_raw.

End Smoothing.

(** *** Values of [np.exp] and [np.tanh] used in examples *)

Fixpoint lookup_float (x : float) (table : list (float * float)) : float :=
  match table with
  | [] => nan
  | (a, b) :: rest =>
      if PrimFloat.Leibniz.eqb x a then b else lookup_float x rest
  end.

(** [np.exp] at the arguments of the examples: 1 at both zeros and at an
    argument of size 1.2e-17, a subnormal-free tiny value at -335.88..., and
    0 (underflow) below -745.2. *)
Definition exp_values : list (float * float) :=
  [ (-0, 1); (0, 1);
    (-1.2335811384723961e-17, 1);
    (-335.8837209302326, 1.341384979374744e-146);
    (-777.7777777777778, 0);
    (-1108.6923076923076, 0) ].

(** [np.tanh] at [(36 - 80) / 12.43]. *)
Definition tanh_values : list (float * float) :=
  [ (-3.5398230088495577, -0.9983172746266921) ].

(** The tabulated part of [np.exp] and [np.tanh]; NaN stands for an
    argument that is not tabulated. *)
Definition exp_table (x : float) : float := lookup_float x exp_values.
Definition tanh_table (x : float) : float := lookup_float x tanh_values.

(** *** Signs of binary64 numbers *)

(** The sign bit is clear, or the number is NaN. *)
Definition sign_clear (f : spec_float) : bool :=
  match f with
  | S754_nan => true
  | S754_zero s | S754_infinity s | S754_finite s _ _ => negb s
  end.

(** The sign bit is [s], or the number is NaN. *)
Definition sign_is (s : bool) (f : spec_float) : Prop :=
  match f with
  | S754_nan => True
  | S754_zero s' | S754_infinity s' | S754_finite s' _ _ => s' = s
  end.

End ASM.

(** ** virtual_trajectory_generation.py (and its duplicate VT.py) *)
Module VT.
Local Open Scope Q_scope.

(** Outcome of a call: a returned value, a Python exception, or an exhausted
    loop budget (the [while] loop of [gen_VT] has no bound of its own). *)
Inductive res (A : Type) : Type :=
| Done (a : A)
| Raise (e : string)
| OutOfFuel.
Arguments Done {A} a.
Arguments Raise {A} e.
Arguments OutOfFuel {A}.

(** *** Floats with NaN *)
Definition float : Type := option Q.
Definition NaN : float := None.

Definition flift2 (f : Q -> Q -> Q) (a b : float) : float :=
  match a, b with
  | Some p, Some q => Some (f p q)
  | _, _ => NaN
  end.
Definition fadd : float -> float -> float := flift2 Qplus.
Definition fsub : float -> float -> float := flift2 Qminus.
Definition fmul : float -> float -> float := flift2 Qmult.
Definition fdiv : float -> float -> float := flift2 Qdiv.
Definition fabs (a : float) : float := option_map Qabs a.

Definition Qltb (p q : Q) : bool :=
  match Qcompare p q with Lt => true | _ => false end.

Definition fcmp (c : Q -> Q -> bool) (a b : float) : bool :=
  match a, b with
  | Some p, Some q => c p q
  | _, _ => false
  end.
Definition fle : float -> float -> bool := fcmp Qle_bool.
Definition flt : float -> float -> bool := fcmp Qltb.
Definition fgt (a b : float) : bool := flt b a.
Definition feq : float -> float -> bool := fcmp Qeq_bool.

(** Round half to even, as Python's [round] and NumPy's do. *)
Definition round_half_even (q : Q) : Z :=
  let f := Qfloor q in
  match Qcompare (q - inject_Z f) (1 # 2) with
  | Lt => f
  | Gt => (f + 1)%Z
  | Eq => if Z.even f then f else (f + 1)%Z
  end.

(** [round(q, 0)] on a float: an integral float. *)
Definition py_round (q : Q) : Q := inject_Z (round_half_even q).

(** [a % b] on floats, for a positive modulus. *)
Definition py_mod (a b : Q) : Q := a - b * inject_Z (Qfloor (a / b)).

(** *** Speed fields and trajectories *)

(** A row of the speed field, seen through its columns [t], [x], [speed]. *)
Record FieldPoint : Type := mkFP { fp_t : float; fp_x : float; fp_speed : float }.

(** A trajectory tuple [(t, x, speed, v_id)]. *)
Record Sample : Type :=
  mkSample { s_time : Q; s_space : float; s_speed : float; s_v_id : Z }.

(** The corridor length of the loop guard. *)
Definition corridor : Q := 4.3.

(** [field[(field.t <= end_time) & (field.t > start_time)]] *)
Definition window (large_speed_field : list FieldPoint)
    (start_time end_time : Q) : list FieldPoint :=
  List.filter
    (fun p => fle (fp_t p) (Some end_time) && fgt (fp_t p) (Some start_time))
    large_speed_field.

Section Integrator.

(** [scipy.interpolate.griddata((time, space), speed, (target_time,
    target_space), method='cubic')]: points, values, target; NaN when no
    estimate is available. *)
Variable griddata :
  list float * list float -> list float -> float * float -> float.

(** The neighbourhood mask of [get_bi_cubic]. *)
Definition near (target_time target_space : float) (p : FieldPoint) : bool :=
  fle (fabs (fsub (fp_t p) target_time)) (Some 8)
  && fle (fabs (fsub (fp_x p) target_space)) (Some 0.04).

(** [get_bi_cubic(target_time, target_space, data)] *)
Definition get_bi_cubic (target_time target_space : float)
    (data : list FieldPoint) : float :=
  let data_small := List.filter (near target_time target_space) data in
  let time := map fp_t data_small in
  let space := map fp_x data_small in
  let speed := map fp_speed data_small in
  let interpolated_value :=
    griddata (time, space) speed (target_time, target_space) in
  interpolated_value.

(** The [while (x < 4.3)] loop of [gen_VT]; [traj] is the list built by
    [traj.append]. *)
Fixpoint gen_VT_loop (fuel : nat) (v_id : Z)
    (large_speed_field : list FieldPoint) (update_rate : Q)
    (t : Q) (x : float) (ranged_speed_field : list FieldPoint)
    (traj : list Sample) {struct fuel} : res (list Sample) :=
  if flt x (Some corridor) then
    match fuel with
    | O => OutOfFuel
    | S fuel' =>
        let speed := get_bi_cubic (Some t) x ranged_speed_field in
        let x := fadd x (fdiv (fmul (Some update_rate) speed) (Some 3600)) in
        let t := py_round (t + update_rate) in
        let ranged_speed_field :=
          if Qeq_bool (py_mod (t - 30) 300) 0
          then window large_speed_field (t - 30) (t + 900 - 30)
          else ranged_speed_field in
        gen_VT_loop fuel' v_id large_speed_field update_rate t x
          ranged_speed_field (traj ++ [mkSample t x speed v_id])
    end
  else Done traj.

(** [gen_VT(t0, v_id, large_speed_field, update_rate=1, x0=0.32)] *)
Definition gen_VT (fuel : nat) (t0 : Q) (v_id : Z)
    (large_speed_field : list FieldPoint) (update_rate x0 : Q)
    : res (list Sample) :=
  let start_time := t0 - 30 in
  let end_time := t0 + 900 - 30 in
  let ranged_speed_field := window large_speed_field start_time end_time in
  let v0 := get_bi_cubic (Some t0) (Some x0) ranged_speed_field in
  let traj := [mkSample t0 (Some x0) v0 v_id] in
  let t := t0 in
  let x := Some x0 in
  gen_VT_loop fuel v_id large_speed_field update_rate t x
    ranged_speed_field traj.



End Integrator.


(** *** Data frames in the object store *)

(** A pandas DataFrame: column labels and rows of float cells. *)
Record DataFrame : Type :=
  mkDF { columns : list string; rows : list (list float) }.

(** References to DataFrame objects, and the object store. *)
Abbreviation loc := positive.
Abbreviation heap := (gmap positive DataFrame).

(** Computations that read and update the store; the store survives an
    exception. *)
Definition M (A : Type) : Type := heap -> heap * res A.

Definition ret {A : Type} (a : A) : M A := fun h => (h, Done a).

Definition bind {A B : Type} (m : M A) (f : A -> M B) : M B :=
  fun h =>
    match m h with
    | (h', Done a) => f a h'
    | (h', Raise e) => (h', Raise e)
    | (h', OutOfFuel) => (h', OutOfFuel)
    end.

Notation "'do' x <- m ; f" := (bind m (fun x => f))
  (at level 10, x name, m at level 100, f at level 200).
Notation "m ;; f" := (bind m (fun _ => f))
  (at level 100, f at level 200, right associativity).

(** A pure outcome inside a store computation. *)
Definition lift {A : Type} (r : res A) : M A := fun h => (h, r).

(** Allocation of a new DataFrame object. *)
Definition df_new (df : DataFrame) : M loc :=
  fun h => let l := fresh (dom h) in (<[l := df]> h, Done l).

Definition df_read (l : loc) : M DataFrame :=
  fun h =>
    match h !! l with
    | Some df => (h, Done df)
    | None => (h, Raise "NameError")
    end.

Definition df_write (l : loc) (df : DataFrame) : M unit :=
  fun h =>
    match h !! l with
    | Some _ => (<[l := df]> h, Done tt)
    | None => (h, Raise "NameError")
    end.

(** [df.copy()]: a new object with the same labels and cells. *)
Definition df_copy (l : loc) : M loc :=
  do df <- df_read l; df_new df.

(** [df.columns = names]: relabels in place; the number of labels must
    match. *)
Definition df_set_columns (l : loc) (names : list string) : M unit :=
  do df <- df_read l;
  if Nat.eqb (length names) (length (columns df))
  then df_write l (mkDF names (rows df))
  else lift (Raise "ValueError: Length mismatch").

Fixpoint index_of (name : string) (cols : list string) : option nat :=
  match cols with
  | [] => None
  | c :: cols' =>
      if String.eqb c name then Some O
      else option_map S (index_of name cols')
  end.

Definition cell (r : list float) (i : nat) : float := nth i r NaN.

Fixpoint set_cell (r : list float) (i : nat) (v : float) : list float :=
  match r, i with
  | [], _ => []
  | _ :: r', O => v :: r'
  | c :: r', S i' => c :: set_cell r' i' v
  end.

(** [df[name] = f(df[name])] for an existing column, cell by cell. *)
Definition df_map_column (l : loc) (name : string) (f : float -> float)
    : M unit :=
  do df <- df_read l;
  match index_of name (columns df) with
  | Some i =>
      df_write l
        (mkDF (columns df)
              (map (fun r => set_cell r i (f (cell r i))) (rows df)))
  | None => lift (Raise "KeyError")
  end.

(** The view of a frame that [gen_VT] uses: its columns [t], [x] and
    [speed]. *)
Definition df_field (l : loc) : M (list FieldPoint) :=
  do df <- df_read l;
  match index_of "t" (columns df), index_of "x" (columns df),
        index_of "speed" (columns df) with
  | Some it, Some ix, Some iv =>
      ret (map (fun r => mkFP (cell r it) (cell r ix) (cell r iv)) (rows df))
  | _, _, _ => lift (Raise "AttributeError")
  end.

(** [pd.DataFrame(traj)] for a list of 4-tuples: default labels 0..3. *)
Definition frame_of_traj (traj : list Sample) : DataFrame :=
  mkDF (match traj with [] => [] | _ => ["0"; "1"; "2"; "3"] end)%string
       (map (fun s => [Some (s_time s); s_space s; s_speed s;
                       Some (inject_Z (s_v_id s))]) traj).

(** [pd.concat(vt_list)]; every frame of the list carries the same labels
    here, so the result has the labels of the first and all rows in order. *)
Fixpoint read_all (ls : list loc) : M (list DataFrame) :=
  match ls with
  | [] => ret []
  | l :: ls' => do df <- df_read l; do dfs <- read_all ls'; ret (df :: dfs)
  end.

Definition pd_concat (vt_list : list loc) : M loc :=
  do dfs <- read_all vt_list;
  match dfs with
  | [] => lift (Raise "ValueError: No objects to concatenate")
  | df :: _ => df_new (mkDF (columns df) (concat (map rows dfs)))
  end.

(** [np.arange(start, stop, step)] on integers. *)
Definition np_arange (start stop step : Z) : res (list Z) :=
  if (step =? 0)%Z then Raise "ZeroDivisionError"
  else
    let n := Z.to_nat (- ((start - stop) / step))%Z in
    Done (map (fun i => (start + Z.of_nat i * step)%Z) (seq 0 n)).

(** [int(time / int(frequency))]: true division, truncated towards zero. *)
Definition vehicle_id (time frequency : Z) : Z := Z.quot time frequency.

(** *** Binary64 numbers as exact rationals *)

(** The rational value of a finite binary64 number. *)
Definition binary64_value (f : spec_float) : option Q :=
  match f with
  | S754_zero _ => Some 0
  | S754_finite s m e =>
      Some (Qred ((if s then -1 else 1) * inject_Z (Zpos m) * Qpower 2 e))
  | S754_infinity _ | S754_nan => None
  end.

(** The binary64 number nearest to a rational (ties to even), for a
    rational whose numerator and denominator are below 2^53. *)
Definition binary64_nearest (q : Q) : spec_float :=
  SF64div (binary_normalize prec emax (Qnum q) 0 false)
          (binary_normalize prec emax (Zpos (Qden q)) 0 false).

(** [round(x, 2)] on a binary64 number [x]: the decimal rounding of its
    exact value (ties to even), converted back to binary64. *)
Definition py_round2 (x : Q) : spec_float :=
  binary64_nearest (inject_Z (round_half_even (x * 100)) / 100).

(** [round(1/traj_hz, 2)]: the quotient is the binary64 number nearest to
    [1/traj_hz]; the update rate is the exact value of the rounded result.
    (The quotient is infinite only for [|traj_hz| < 2^-1024]; the model has
    no infinite rate and stops there.) *)
Definition rate_of_hz (traj_hz : Q) : res Q :=
  if Qeq_bool traj_hz 0 then Raise "ZeroDivisionError"
  else
    match binary64_value (binary64_nearest (1 / traj_hz)) with
    | Some q =>
        match binary64_value (py_round2 q) with
        | Some update_rate => Done update_rate
        | None => Raise "OverflowError"
        end
    | None => Raise "OverflowError"
    end.

Section Fleet.

Variable griddata :
  list float * list float -> list float -> float * float -> float.

(** The body of the [for] loop of [gen_all_VT]
    (virtual_trajectory_generation.py). *)
Definition spawn (fuel : nat) (smooth_vt : loc) (frequency : Z) (traj_hz : Q)
    (time : Z) : M loc :=
  let k := vehicle_id time frequency in
  do update_rate <- lift (rate_of_hz traj_hz);
  do field <- df_field smooth_vt;
  do traj <- lift (gen_VT griddata fuel (inject_Z time) k field update_rate 0.32);
  do vt <- df_new (frame_of_traj traj);
  df_set_columns vt ["time"; "space"; "speed"; "v_id"]%string ;;
  df_map_column vt "space" (fsub (Some 63)) ;;
  ret vt.

(** The [for] loop itself, with [vt_list.append]. *)
Fixpoint spawn_all (fuel : nat) (smooth_vt : loc) (frequency : Z) (traj_hz : Q)
    (times : list Z) (vt_list : list loc) : M (list loc) :=
  match times with
  | [] => ret vt_list
  | time :: times' =>
      do vt <- spawn fuel smooth_vt frequency traj_hz time;
      spawn_all fuel smooth_vt frequency traj_hz times' (vt_list ++ [vt])
  end.

(** [gen_all_VT(smooth_speed, frequency, hour, traj_hz=1)] *)
Definition gen_all_VT (fuel : nat) (smooth_speed : loc) (frequency hour : Z)
    (traj_hz : Q) : M loc :=
  let vt_list := [] in
  do smooth_vt <- df_copy smooth_speed;
  df_set_columns smooth_vt
    ["t_index"; "x_index"; "raw_speed"; "t"; "x"; "speed"]%string ;;
  df_map_column smooth_vt "x" (fsub (Some 63)) ;;
  do times <- lift (np_arange 30 (30 + 3600 * hour + 1 - 120) frequency);
  do vt_list <- spawn_all fuel smooth_vt frequency traj_hz times vt_list;
  do vt_all <- pd_concat vt_list;
  ret vt_all.

(** The variant of VT.py: no [traj_hz] parameter, [gen_VT] runs with its
    default update rate 1. *)
Definition VTpy_spawn (fuel : nat) (smooth_vt : loc) (frequency : Z)
    (time : Z) : M loc :=
  let k := vehicle_id time frequency in
  do field <- df_field smooth_vt;
  do traj <- lift (gen_VT griddata fuel (inject_Z time) k field 1 0.32);
  do vt <- df_new (frame_of_traj traj);
  df_set_columns vt ["time"; "space"; "speed"; "v_id"]%string ;;
  df_map_column vt "space" (fsub (Some 63)) ;;
  ret vt.

Fixpoint VTpy_spawn_all (fuel : nat) (smooth_vt : loc) (frequency : Z)
    (times : list Z) (vt_list : list loc) : M (list loc) :=
  match times with
  | [] => ret vt_list
  | time :: times' =>
      do vt <- VTpy_spawn fuel smooth_vt frequency time;
      VTpy_spawn_all fuel smooth_vt frequency times' (vt_list ++ [vt])
  end.

Definition VTpy_gen_all_VT (fuel : nat) (smooth_speed : loc)
    (frequency hour : Z) : M loc :=
  let vt_list := [] in
  do smooth_vt <- df_copy smooth_speed;
  df_set_columns smooth_vt
    ["t_index"; "x_index"; "raw_speed"; "t"; "x"; "speed"]%string ;;
  df_map_column smooth_vt "x" (fsub (Some 63)) ;;
  do times <- lift (np_arange 30 (30 + 3600 * hour + 1 - 120) frequency);
  do vt_list <- VTpy_spawn_all fuel smooth_vt frequency times vt_list;
  do vt_all <- pd_concat vt_list;
  ret vt_all.

End Fleet.

(** *** Properties of trajectories *)

(** [R] holds between every sample and the next one. *)
Definition consecutive (R : Sample -> Sample -> Prop) (traj : list Sample)
    : Prop :=
  forall (i : nat) (a b : Sample),
    traj !! i = Some a -> traj !! S i = Some b -> R a b.

Definition time_increases (a b : Sample) : Prop := s_time a < s_time b.

(** [space a <= space b] as Python evaluates it (false on NaN). *)
Definition space_nondecreasing (a b : Sample) : Prop :=
  fle (s_space a) (s_space b) = true.

(** Between neighbours: time strictly increases and space does not
    decrease. *)
Definition monotone_step (a b : Sample) : Prop :=
  time_increases a b /\ space_nondecreasing a b.

(** The same, with the space part only for a later sample whose recorded
    speed is a non-negative number. *)
Definition monotone_step_forward (a b : Sample) : Prop :=
  time_increases a b /\
  (forall v : Q, s_speed b = Some v -> 0 <= v -> space_nondecreasing a b).

(** Sample [b] was produced from sample [a] by one iteration: its speed is
    the interpolation at the time and position of [a] (in some cached
    window of the field [F]); its time and position are those of [a]
    advanced with that speed. *)
Definition lagged_step
    (griddata : list float * list float -> list float -> float * float -> float)
    (F : list FieldPoint) (u : Q) (a b : Sample) : Prop :=
  exists (w xq : Q),
    s_space a = Some xq /\
    s_speed b = get_bi_cubic griddata (Some (s_time a)) (Some xq)
                  (window F (w - 30) (w + 900 - 30)) /\
    s_time b = py_round (s_time a + u) /\
    s_space b = fadd (Some xq) (fdiv (fmul (Some u) (s_speed b)) (Some 3600)).

(** *** Properties of store computations *)

(** Run from any store that extends [h0], the computation [m] leaves every
    object of [h0] as it is (whatever the outcome), and a returned value
    satisfies [post]. *)
Definition keeps {A : Type} (h0 : gmap positive DataFrame) (m : M A)
    (post : A -> Prop) : Prop :=
  forall h : gmap positive DataFrame,
    h0 ⊆ h ->
    h0 ⊆ fst (m h) /\ forall a, snd (m h) = Done a -> post a.

(** A reference that [h0] does not hold: an object private to the call. *)
Definition private (h0 : gmap positive DataFrame) (l : positive) : Prop :=
  h0 !! l = None.

(** *** Concrete interpolator and fields used in examples *)

(** The target lies between the smallest and the largest coordinate of the
    points, on both axes. *)
Definition spanned (points : list float * list float) (xi : float * float)
    : bool :=
  existsb (fun a => fle a (fst xi)) (fst points)
  && existsb (fun a => fle (fst xi) a) (fst points)
  && existsb (fun a => fle a (snd xi)) (snd points)
  && existsb (fun a => fle (snd xi) a) (snd points).

(** An interpolator defined on uniform data only: when the target is
    spanned by a non-empty set of points that all carry the same speed it
    returns that speed (every interpolation scheme that reproduces constants
    agrees with it there), and NaN otherwise. *)
Definition uniform_griddata (points : list float * list float)
    (values : list float) (xi : float * float) : float :=
  match values with
  | [] => NaN
  | v :: rest => if forallb (feq v) rest && spanned points xi then v else NaN
  end.

(** A rectangular grid of field points, all with speed [v]. *)
Definition grid (ts xs : list Q) (v : Q) : list FieldPoint :=
  flat_map (fun t => map (fun x => mkFP (Some t) (Some x) (Some v)) xs) ts.

(** A uniform 60 mph field around the last hundredth of a mile of the
    corridor. *)
Definition field_exit60 : list FieldPoint := grid [25; 35] [4.28; 4.31] 60.

(** The same patch with every speed negative. *)
Definition field_reverse : list FieldPoint := grid [25; 35] [4.28; 4.31] (-60).

(** Standing traffic around the default start position. *)
Definition field_jam : list FieldPoint := grid [25; 35] [0.30; 0.34] 0.


(** A smoothed table with four 60 mph points next to the start position;
    after reflection their positions are 0.33 and 0.35, so the default start
    0.32 is not spanned by them. *)
Definition small_frame : DataFrame :=
  mkDF ["t"; "x"; "raw_speed"; "time"; "milemarker"; "speed"]%string
       [[Some 0; Some 0; NaN; Some 25; Some 62.67; Some 60];
        [Some 0; Some 1; NaN; Some 25; Some 62.65; Some 60];
        [Some 1; Some 0; NaN; Some 35; Some 62.67; Some 60];
        [Some 1; Some 1; NaN; Some 35; Some 62.65; Some 60]].

(** A smoothed table for a one-hour fleet with a spawn every 300 s: around
    each spawn time [time] six 60 mph points, at the times [time - 5] and
    [time + 3/2] and the milemarkers 62.69, 62.66 and 62.63 (positions
    0.31, 0.34 and 0.37 after reflection).  A vehicle started there is inside
    the data for two steps and outside of their time span at the third. *)
Definition fleet_frame : DataFrame :=
  mkDF ["t"; "x"; "raw_speed"; "time"; "milemarker"; "speed"]%string
       (flat_map
          (fun k : Z =>
             let time := inject_Z (30 + 300 * k) in
             flat_map
               (fun t =>
                  map (fun m => [Some 0; Some 0; NaN; Some t; Some m; Some 60])
                      [62.69; 62.66; 62.63])
               [time - 5; time + (3 # 2)])
          [0; 1; 2; 3; 4; 5; 6; 7; 8; 9; 10; 11]%Z).

(** *** The frames that [gen_all_VT] builds *)

(** The content of [smooth_vt] once it has been relabelled and its [x]
    column (the fifth) has been reflected. *)
Definition smooth_vt_frame (smooth_speed : DataFrame) : DataFrame :=
  mkDF ["t_index"; "x_index"; "raw_speed"; "t"; "x"; "speed"]%string
       (map (fun r => set_cell r 4 (fsub (Some 63) (cell r 4)))
            (rows smooth_speed)).

(** The speed field that [gen_VT] reads from such a frame: its columns
    [t], [x] and [speed] (the fourth, fifth and sixth). *)
Definition frame_field (smooth_vt : DataFrame) : list FieldPoint :=
  map (fun r => mkFP (cell r 3) (cell r 4) (cell r 5)) (rows smooth_vt).

(** The rows of one vehicle's table: its trajectory with the position
    reflected back. *)
Definition vehicle_rows (traj : list Sample) : list (list float) :=
  map (fun s => [Some (s_time s); fsub (Some 63) (s_space s); s_speed s;
                 Some (inject_Z (s_v_id s))]) traj.

(** The table [out] of the store [h'] is what a one-hour fleet with a spawn
    every 300 s leaves from the smoothed table [df], with the update rate
    [u]: the trajectories of twelve vehicles, in spawn order; vehicle [k]
    (counted from 0) was integrated from the time [30 + 300 k] with the id
    [int(time / 300) = k], its trajectory starts at that time at 0.32 mile,
    and every row of it carries the id [k]. *)
Definition fleet_300_1
    (griddata : list float * list float -> list float -> float * float -> float)
    (fuel : nat) (df : DataFrame) (u : Q)
    (h' : gmap positive DataFrame) (out : positive) : Prop :=
  exists trajs : list (list Sample),
    length trajs = 12%nat /\
    (Z.of_nat (length trajs) = (3600 - 120 - 30) / 300 + 1)%Z /\
    (forall (k : nat) (traj : list Sample),
        trajs !! k = Some traj ->
        let time := (30 + 300 * Z.of_nat k)%Z in
        (30 <= time <= 30 + 3600 * 1 - 120)%Z /\
        vehicle_id time 300 = Z.of_nat k /\
        gen_VT griddata fuel (inject_Z time) (Z.of_nat k)
          (frame_field (smooth_vt_frame df)) u 0.32 = Done traj /\
        (exists v0 rest,
            traj = mkSample (inject_Z time) (Some 0.32) v0 (Z.of_nat k)
                   :: rest) /\
        Forall (fun s => s_v_id s = Z.of_nat k) traj) /\
    h' !! out = Some (mkDF ["time"; "space"; "speed"; "v_id"]%string
                        (concat (map vehicle_rows trajs))).

End VT.

(** ** Facts about ASM.py *)

(** *** Binary64 arithmetic *)
Section Binary64.
Import ASM.
Local Open Scope float_scope.

(** Rounding keeps the sign. *)
Lemma binary_round_aux_sign (s : bool) (m e : Z) (l : location) :
  sign_is s (binary_round_aux prec emax s m e l).
Proof.
  unfold binary_round_aux.
  destruct (shr_fexp prec emax m e l) as [mrs' e'].
  destruct (shr_fexp prec emax _ e' loc_Exact) as [mrs'' e''].
  destruct (shr_m mrs''); simpl; try reflexivity.
  destruct (Z.leb _ _); reflexivity.
Qed.

Lemma sign_is_clear (f : spec_float) : sign_is false f -> sign_clear f = true.
Proof.
  destruct f as [s|s| |s m e]; simpl; intros H; try rewrite H; reflexivity.
Qed.

Lemma SFabs_clear (f : spec_float) : sign_clear (SFabs f) = true.
Proof. destruct f; reflexivity. Qed.

Lemma SFmul_clear (a b : spec_float) :
  sign_clear a = true -> sign_clear b = true -> sign_clear (SF64mul a b) = true.
Proof.
  destruct a as [[]|[]| |[] ma ea], b as [[]|[]| |[] mb eb];
    simpl; intros Ha Hb; try discriminate; try reflexivity.
  apply sign_is_clear. apply binary_round_aux_sign.
Qed.

Lemma SFdiv_clear (a b : spec_float) :
  sign_clear a = true -> sign_clear b = true -> sign_clear (SF64div a b) = true.
Proof.
  destruct a as [[]|[]| |[] ma ea], b as [[]|[]| |[] mb eb];
    simpl; intros Ha Hb; try discriminate; try reflexivity.
  unfold SF64div, SFdiv.
  destruct (SFdiv_core_binary prec emax (Z.pos ma) ea (Z.pos mb) eb)
    as [[mz ez] lz].
  apply sign_is_clear. apply binary_round_aux_sign.
Qed.

Lemma SFadd_clear (a b : spec_float) :
  sign_clear a = true -> sign_clear b = true -> sign_clear (SF64add a b) = true.
Proof.
  destruct a as [[]|[]| |[] ma ea], b as [[]|[]| |[] mb eb];
    simpl; intros Ha Hb; try discriminate; try reflexivity.
  unfold SF64add, SFadd. cbv zeta. simpl cond_Zopp.
  unfold binary_normalize, binary_round.
  destruct (shl_align _ _ _) as [mz ez].
  apply sign_is_clear. apply binary_round_aux_sign.
Qed.

(** A finite number is a zero or has a mantissa and an exponent. *)
Lemma finite_cases (x : float) :
  is_finite x = true ->
  (exists s, Prim2SF x = S754_zero s) \/
  (exists s m e, Prim2SF x = S754_finite s m e).
Proof.
  intros H. unfold is_finite, is_nan, is_infinity in H.
  rewrite !FloatAxioms.eqb_spec, abs_spec in H.
  destruct (Prim2SF x) as [s|s| |s m e]; simpl in H; try discriminate.
  - left; eauto.
  - destruct s; discriminate.
  - right; eauto.
Qed.

Lemma positive_finite (w : float) :
  is_finite w = true -> (0 <? w) = true ->
  exists m e, Prim2SF w = S754_finite false m e.
Proof.
  intros Hf Hp. rewrite ltb_spec in Hp.
  destruct (finite_cases w Hf) as [[s E]|(s & m & e & E)]; rewrite E in *.
  - discriminate.
  - destruct s; [discriminate|]. eauto.
Qed.

Lemma nonzero_finite (c : float) :
  is_finite c = true -> (c =? 0) = false ->
  exists s m e, Prim2SF c = S754_finite s m e.
Proof.
  intros Hf Hz. rewrite FloatAxioms.eqb_spec in Hz.
  destruct (finite_cases c Hf) as [[s E]|H]; [|exact H].
  rewrite E in Hz. discriminate.
Qed.

(** The difference of a finite number with itself is +0. *)
Lemma sub_diag (y : float) : is_finite y = true -> y - y = 0.
Proof.
  intros Hy. apply Prim2SF_inj. rewrite sub_spec.
  destruct (finite_cases y Hy) as [[s E]|(s & m & e & E)]; rewrite E.
  - destruct s; reflexivity.
  - unfold SF64sub, SFsub. cbv zeta. rewrite Z.sub_diag. reflexivity.
Qed.


End Binary64.

(** *** The kernels and the filter *)
Section ASM_facts.
Import ASM.
Local Open Scope float_scope.

Variables np_exp np_tanh : float -> float.

Lemma kernel_unfold (x t x_s t_s x_win t_win c : float) :
  kernel np_exp x t x_s t_s x_win t_win c
  = np_exp (kernel_argument x t x_s t_s x_win t_win c).
Proof. reflexivity. Qed.

(** For positive finite windows the argument of [np.exp] is never
    positive: it is NaN or at most zero, whatever the other inputs. *)
Lemma kernel_argument_sign (x t x_s t_s x_win t_win c : float) :
  is_finite x_win = true -> (0 <? x_win) = true ->
  is_finite t_win = true -> (0 <? t_win) = true ->
  let a := kernel_argument x t x_s t_s x_win t_win c in
  is_nan a = true \/ (a <=? 0) = true.
Proof.
  intros Hxf Hxp Htf Htp a.
  destruct (positive_finite x_win Hxf Hxp) as (mx & ex & Ex).
  destruct (positive_finite t_win Htf Htp) as (mt & et & Et).
  set (s := 2 * abs (x - x_s) / x_win
            + 2 * abs (t - t_s - 3600 * (x - x_s) / c) / t_win).
  assert (Hs : sign_clear (Prim2SF s) = true).
  { subst s. rewrite add_spec, !div_spec, !mul_spec, !abs_spec, Ex, Et.
    apply SFadd_clear; apply SFdiv_clear; try reflexivity;
      (apply SFmul_clear; [reflexivity|apply SFabs_clear]). }
  change a with (- s). unfold is_nan.
  rewrite FloatAxioms.eqb_spec, leb_spec, opp_spec.
  change (Prim2SF 0) with (S754_zero false).
  destruct (Prim2SF s) as [[]|[]| |[] m e]; simpl in *;
    try discriminate; auto.
Qed.

(** At a coincident observation every term of the argument is a zero, and
    the argument is -0. *)
Lemma kernel_argument_coincident (x t x_win t_win c : float) :
  is_finite x = true -> is_finite t = true ->
  is_finite x_win = true -> (0 <? x_win) = true ->
  is_finite t_win = true -> (0 <? t_win) = true ->
  is_finite c = true -> (c =? 0) = false ->
  kernel_argument x t x t x_win t_win c = (-0).
Proof.
  intros Hx Ht Hxf Hxp Htf Htp Hcf Hc0.
  destruct (positive_finite x_win Hxf Hxp) as (mx & ex & Ex).
  destruct (positive_finite t_win Htf Htp) as (mt & et & Et).
  destruct (nonzero_finite c Hcf Hc0) as (sc & mc & ec & Ec).
  apply Prim2SF_inj. unfold kernel_argument.
  rewrite (sub_diag x Hx), (sub_diag t Ht).
  repeat first [rewrite opp_spec | rewrite add_spec | rewrite div_spec
               | rewrite mul_spec | rewrite abs_spec | rewrite sub_spec].
  rewrite Ex, Et, Ec.
  destruct sc; reflexivity.
Qed.

(** C6 (amended). For finite positive window sizes and finite non-zero
    characteristic speeds, each kernel returns [np.exp] of an argument that
    is never positive (it is NaN or at most zero); and when the observation
    coincides with a finite target in space and in time, the argument is -0
    and the weight is [np.exp(-0.0)], that is exactly 1. *)
Theorem kernel_weight_shape (x t x_s t_s x_win t_win c_free c_cong : float) :
  is_finite x_win = true -> (0 <? x_win) = true ->
  is_finite t_win = true -> (0 <? t_win) = true ->
  is_finite c_free = true -> (c_free =? 0) = false ->
  is_finite c_cong = true -> (c_cong =? 0) = false ->
  (exists a b : float,
      (is_nan a = true \/ (a <=? 0) = true) /\
      (is_nan b = true \/ (b <=? 0) = true) /\
      beta_free_flow np_exp x t x_s t_s x_win t_win c_free
      = Returned (np_exp a) /\
      beta_cong_flow np_exp x t x_s t_s x_win t_win c_cong
      = Returned (np_exp b)) /\
  (is_finite x = true -> is_finite t = true -> np_exp (-0) = 1 ->
   beta_free_flow np_exp x t x t x_win t_win c_free = Returned 1 /\
   beta_cong_flow np_exp x t x t x_win t_win c_cong = Returned 1).
Proof.
  intros Hxf Hxp Htf Htp Hff Hf0 Hcf Hc0.
  unfold beta_free_flow, beta_cong_flow. rewrite Hf0, Hc0. split.
  - exists (kernel_argument x t x_s t_s x_win t_win c_free),
           (kernel_argument x t x_s t_s x_win t_win c_cong).
    split; [apply kernel_argument_sign; assumption|].
    split; [apply kernel_argument_sign; assumption|].
    split; reflexivity.
  - intros Hx Ht He.
    rewrite !kernel_unfold, !kernel_argument_coincident, He by assumption.
    split; reflexivity.
Qed.

(** The guard of line 112 is a conjunction: one vanishing sum disables both
    averages. *)
Lemma EGTF_regimes_default (speed : list WObs) :
  (sum_free speed =? 0) = true \/ (sum_cong speed =? 0) = true ->
  EGTF_regimes speed = (80, 80).
Proof.
  unfold EGTF_regimes, fneq. intros [H|H]; rewrite H; simpl.
  - reflexivity.
  - rewrite andb_false_r. reflexivity.
Qed.


(** The blend of the two defaults, for the value that [np.tanh] takes at
    [(36 - 80) / 12.43]: one unit in the last place above 80. *)
Lemma EGTF_mix_defaults :
  np_tanh ((36 - 80) / 12.43) = -0.9983172746266921 ->
  EGTF_mix np_tanh 80 80 = 80.00000000000001.
Proof.
  intros H. unfold EGTF_mix. cbv zeta.
  change (py_min 80 80) with 80. rewrite H. vm_compute. reflexivity.
Qed.

Lemma EGTF_blend_default (speed : list WObs) :
  (sum_free speed =? 0) = true \/ (sum_cong speed =? 0) = true ->
  EGTF_blend np_tanh speed = EGTF_mix np_tanh 80 80.
Proof.
  intros H. unfold EGTF_blend. rewrite (EGTF_regimes_default speed H).
  reflexivity.
Qed.

(** C3 (amended). As soon as one of the two weight sums over the box is
    zero (exactly one, or both), neither weighted average is used: both
    regime estimates are the default 80 and the filter returns what it
    returns on an empty table, the blend of the two defaults; with the value
    of [np.tanh] at [(36 - 80) / 12.43] that blend is 80.00000000000001. *)
Theorem EGTF_zero_sum_defaults_both
    (x t smooth_x_window smooth_t_window : float) (speed_raw_df : list Obs) :
  let speed :=
    EGTF_rows np_exp x t smooth_x_window smooth_t_window speed_raw_df in
  (sum_free speed =? 0) = true \/ (sum_cong speed =? 0) = true ->
  EGTF_regimes speed = (80, 80) /\
  EGTF np_exp np_tanh x t smooth_x_window smooth_t_window speed_raw_df
  = EGTF np_exp np_tanh x t smooth_x_window smooth_t_window [] /\
  (np_tanh ((36 - 80) / 12.43) = -0.9983172746266921 ->
   EGTF np_exp np_tanh x t smooth_x_window smooth_t_window speed_raw_df
   = 80.00000000000001).
Proof.
  intros speed H. split; [|split].
  - apply EGTF_regimes_default; exact H.
  - unfold EGTF. fold speed. rewrite (EGTF_blend_default speed H). reflexivity.
  - intros Ht. unfold EGTF. fold speed.
    rewrite (EGTF_blend_default speed H). apply EGTF_mix_defaults; exact Ht.
Qed.

(** C4 (amended). On an empty restricted box both weight sums are zero,
    both regime estimates are the default 80, and the filter returns the
    blend of the two defaults: with the value of [np.tanh] at
    [(36 - 80) / 12.43] it is 80.00000000000001, not 80. *)
Theorem EGTF_empty_box (x t smooth_x_window smooth_t_window : float)
    (speed_raw_df : list Obs) :
  np_tanh ((36 - 80) / 12.43) = -0.9983172746266921 ->
  List.filter (in_box x t smooth_x_window smooth_t_window) speed_raw_df = [] ->
  let speed :=
    EGTF_rows np_exp x t smooth_x_window smooth_t_window speed_raw_df in
  sum_free speed = 0 /\ sum_cong speed = 0 /\
  EGTF_regimes speed = (80, 80) /\
  EGTF np_exp np_tanh x t smooth_x_window smooth_t_window speed_raw_df
  = 80.00000000000001.
Proof.
  intros Ht Hbox speed.
  assert (Hs : speed = [])
    by (subst speed; unfold EGTF_rows; rewrite Hbox; reflexivity).
  split; [rewrite Hs; reflexivity|]. split; [rewrite Hs; reflexivity|].
  split; [rewrite Hs; reflexivity|].
  unfold EGTF. fold speed. rewrite Hs. apply EGTF_mix_defaults; exact Ht.
Qed.


(** X6. Observations outside the box of the target have no influence. *)
Theorem EGTF_ignores_outside_box
    (x t smooth_x_window smooth_t_window : float) (df far : list Obs) :
  Forall (fun o => in_box x t smooth_x_window smooth_t_window o = false) far ->
  EGTF np_exp np_tanh x t smooth_x_window smooth_t_window (df ++ far)
  = EGTF np_exp np_tanh x t smooth_x_window smooth_t_window df /\
  EGTF np_exp np_tanh x t smooth_x_window smooth_t_window (far ++ df)
  = EGTF np_exp np_tanh x t smooth_x_window smooth_t_window df.
Proof.
  intros HF.
  assert (Hnil : List.filter (in_box x t smooth_x_window smooth_t_window) far = []).
  { induction HF as [|o l Ho _ IH]; simpl; [reflexivity|]. rewrite Ho. exact IH. }
  unfold EGTF, EGTF_rows. rewrite !List.filter_app, Hnil, app_nil_r. simpl.
  split; reflexivity.
Qed.

Lemma dropna_missing (dx dt : float) (l1 l2 : list RawRow) (r : RawRow) :
  is_nan (raw_speed r) = true ->
  dropna dx dt (l1 ++ r :: l2) = dropna dx dt (l1 ++ l2).
Proof.
  intros Hr. unfold dropna. rewrite !flat_map_app. simpl. rewrite Hr.
  rewrite !orb_true_r. reflexivity.
Qed.

(** X8. A row whose raw speed is missing is never a source: the other rows
    get the smoothed values they would get without it, and the row itself is
    kept, with its indices, its missing raw speed, its physical coordinates
    and a smoothed value computed from the observed rows. *)
Theorem smooth_raw_data_skips_missing
    (l1 l2 : list RawRow) (r : RawRow)
    (dx dt smooth_x_window smooth_t_window : float) :
  is_nan (raw_speed r) = true ->
  let out := smooth_raw_data np_exp np_tanh (l1 ++ l2) dx dt
               smooth_x_window smooth_t_window in
  smooth_raw_data np_exp np_tanh (l1 ++ r :: l2) dx dt
    smooth_x_window smooth_t_window
  = firstn (length l1) out
    ++ mkSmooth (raw_t_index r) (raw_x_index r) (raw_speed r)
         (dt * raw_t_index r) (dx * raw_x_index r + 58.7)
         (EGTF np_exp np_tanh (dx * raw_x_index r + 58.7) (dt * raw_t_index r)
            smooth_x_window smooth_t_window (dropna dx dt (l1 ++ l2)))
    :: skipn (length l1) out.
Proof.
  intros Hr out. subst out. unfold smooth_raw_data; cbv zeta.
  rewrite (dropna_missing dx dt l1 l2 r Hr).
  rewrite !map_app.
  rewrite take_app_length' by (rewrite length_map; reflexivity).
  rewrite drop_app_length' by (rewrite length_map; reflexivity).
  reflexivity.
Qed.

End ASM_facts.

(** *** Binary64 runs of the kernels and of the filter *)
Section ASM_runs.
Import ASM.
Local Open Scope float_scope.

(** The kernels with their default speeds and windows, for an observation
    0.05 mile and 10 s away from the target, and at the target itself. *)
Lemma kernel_weight_shape_witness :
  (exists a b : float,
      (is_nan a = true \/ (a <=? 0) = true) /\
      (is_nan b = true \/ (b <=? 0) = true) /\
      beta_free_flow exp_table 60 100 60.05 110 0.15 36 c_free_default
      = Returned (exp_table a) /\
      beta_cong_flow exp_table 60 100 60.05 110 0.15 36 c_cong_default
      = Returned (exp_table b)) /\
  beta_free_flow exp_table 60.05 110 60.05 110 0.15 36 c_free_default
  = Returned 1 /\
  beta_cong_flow exp_table 60.05 110 60.05 110 0.15 36 c_cong_default
  = Returned 1.
Proof.
  split.
  - apply (kernel_weight_shape exp_table 60 100 60.05 110 0.15 36
             c_free_default c_cong_default); reflexivity.
  - apply (kernel_weight_shape exp_table 60.05 110 60.05 110 0.15 36
             c_free_default c_cong_default); reflexivity.
Defined.

(** C6, as stated, fails in binary64.  With the default speeds and windows
    an observation 14000 s away gets the weight 0.0 ([np.exp] underflows),
    which is not in (0, 1]; an observation whose time differs from the
    target's by one unit in the last place gets the weight 1.0 although it
    does not coincide with the target; and a zero characteristic speed
    raises instead of returning a weight. *)
Lemma C6_kernel_range_counterexample :
  beta_free_flow exp_table 60 0 60 14000 0.15 36 c_free_default = Returned 0 /\
  beta_cong_flow exp_table 60 0 60 14000 0.15 36 c_cong_default = Returned 0 /\
  (1 =? 1.0000000000000002) = false /\
  beta_free_flow exp_table 60 1 60 1.0000000000000002 0.15 36 c_free_default
  = Returned 1 /\
  beta_cong_flow exp_table 60 1 60 1.0000000000000002 0.15 36 c_cong_default
  = Returned 1 /\
  beta_free_flow exp_table 60 1 60 1 0.15 36 0 = ZeroDivisionError /\
  beta_cong_flow exp_table 60 1 60 1 0.15 36 0 = ZeroDivisionError.
Proof. repeat split; vm_compute; reflexivity. Qed.

(** C3, as stated, fails.  One 64 mph observation one mile from the target,
    windows of 2 miles and half a second: the observation is in the box, its
    free-flow weight is 1.3e-146 and its congested weight underflows to 0.0.
    The free-flow sum is not zero and the free-flow average is 64, yet the
    free-flow estimate is the default 80 and the filter returns
    80.00000000000001. *)
Lemma C3_one_sided_counterexample :
  let df := [mkObs 100 61 64] in
  let speed := EGTF_rows exp_table 60 100 2 0.5 df in
  in_box 60 100 2 0.5 (mkObs 100 61 64) = true /\
  fneq (sum_free speed) 0 = true /\
  (sum_cong speed =? 0) = true /\
  avg_free speed = 64 /\
  fst (EGTF_regimes speed) = 80 /\
  EGTF exp_table tanh_table 60 100 2 0.5 df = 80.00000000000001.
Proof. repeat split; vm_compute; reflexivity. Qed.

Lemma EGTF_zero_sum_defaults_both_witness :
  let df := [mkObs 100 61 64] in
  let speed := EGTF_rows exp_table 60 100 2 0.5 df in
  EGTF_regimes speed = (80, 80) /\
  EGTF exp_table tanh_table 60 100 2 0.5 df
  = EGTF exp_table tanh_table 60 100 2 0.5 [] /\
  EGTF exp_table tanh_table 60 100 2 0.5 df = 80.00000000000001.
Proof.
  intros df speed.
  destruct (EGTF_zero_sum_defaults_both exp_table tanh_table 60 100 2 0.5 df)
    as (H1 & H2 & H3).
  - right. vm_compute. reflexivity.
  - split; [exact H1|]. split; [exact H2|]. apply H3. vm_compute. reflexivity.
Defined.

(** C4, as stated, fails.  One observation, 400 s away from the target: the
    box is empty and the filter returns 80.00000000000001, which is not 80.
    The blend of two equal defaults is not independent of the weight: with
    a tanh term of -0.9983172746266918 it is 79.99999999999999, with a tanh
    term of 0 it is 80. *)
Lemma C4_empty_box_counterexample :
  List.filter (in_box 60 100 0.15 36) [mkObs 500 60 55] = [] /\
  EGTF exp_table tanh_table 60 100 0.15 36 [mkObs 500 60 55]
  = 80.00000000000001 /\
  (EGTF exp_table tanh_table 60 100 0.15 36 [mkObs 500 60 55] =? 80) = false /\
  EGTF_mix (fun _ => -0.9983172746266918) 80 80 = 79.99999999999999 /\
  EGTF_mix (fun _ => 0) 80 80 = 80.
Proof. repeat split; vm_compute; reflexivity. Qed.

Lemma EGTF_empty_box_witness :
  let speed := EGTF_rows exp_table 60 100 0.15 36 [mkObs 500 60 55] in
  sum_free speed = 0 /\ sum_cong speed = 0 /\
  EGTF_regimes speed = (80, 80) /\
  EGTF exp_table tanh_table 60 100 0.15 36 [mkObs 500 60 55]
  = 80.00000000000001.
Proof.
  apply (EGTF_empty_box exp_table tanh_table 60 100 0.15 36 [mkObs 500 60 55]);
    vm_compute; reflexivity.
Defined.



Lemma EGTF_ignores_outside_box_witness :
  EGTF exp_table tanh_table 60 100 0.15 36
    ([mkObs 100 60 80] ++ [mkObs 500 60 20])
  = EGTF exp_table tanh_table 60 100 0.15 36 [mkObs 100 60 80] /\
  EGTF exp_table tanh_table 60 100 0.15 36
    ([mkObs 500 60 20] ++ [mkObs 100 60 80])
  = EGTF exp_table tanh_table 60 100 0.15 36 [mkObs 100 60 80].
Proof.
  apply (EGTF_ignores_outside_box exp_table tanh_table 60 100 0.15 36).
  repeat constructor.
Defined.

(** A raw table with two observed points and one missing value. *)
Lemma smooth_raw_data_skips_missing_witness :
  let out := smooth_raw_data exp_table tanh_table
               ([mkRaw 0 0 60] ++ [mkRaw 1 0 50]) 0.02 4 0.15 36 in
  smooth_raw_data exp_table tanh_table
    ([mkRaw 0 0 60] ++ mkRaw 0 1 nan :: [mkRaw 1 0 50]) 0.02 4 0.15 36
  = firstn (length [mkRaw 0 0 60]) out
    ++ mkSmooth (raw_t_index (mkRaw 0 1 nan)) (raw_x_index (mkRaw 0 1 nan))
         (raw_speed (mkRaw 0 1 nan))
         (4 * raw_t_index (mkRaw 0 1 nan))
         (0.02 * raw_x_index (mkRaw 0 1 nan) + 58.7)
         (EGTF exp_table tanh_table
            (0.02 * raw_x_index (mkRaw 0 1 nan) + 58.7)
            (4 * raw_t_index (mkRaw 0 1 nan)) 0.15 36
            (dropna 0.02 4 ([mkRaw 0 0 60] ++ [mkRaw 1 0 50])))
    :: skipn (length [mkRaw 0 0 60]) out.
Proof.
  apply (smooth_raw_data_skips_missing exp_table tanh_table [mkRaw 0 0 60]
           [mkRaw 1 0 50] (mkRaw 0 1 nan) 0.02 4 0.15 36).
  reflexivity.
Defined.

End ASM_runs.

(** ** Facts about the trajectory integrator *)
Section VT_numbers.
Import VT.
Local Open Scope Q_scope.

Lemma Qltb_lt (p q : Q) : Qltb p q = true <-> p < q.
Proof.
  unfold Qltb. rewrite Qlt_alt.
  destruct (Qcompare p q); split; intros H; try reflexivity; discriminate.
Qed.

Lemma Qltb_ge (p q : Q) : Qltb p q = false <-> q <= p.
Proof.
  unfold Qltb. destruct (Qcompare p q) eqn:E.
  - apply Qeq_alt in E. split; [intros _; lra|reflexivity].
  - apply Qlt_alt in E. split; [discriminate|intros H; lra].
  - apply Qgt_alt in E. split; [intros _; lra|reflexivity].
Qed.

Lemma flt_true (x : float) (c : Q) :
  flt x (Some c) = true <-> exists q, x = Some q /\ q < c.
Proof.
  destruct x as [q|]; simpl; split.
  - intros H; exists q; split; [reflexivity|apply Qltb_lt; exact H].
  - intros (q' & E & H); injection E as <-; apply Qltb_lt; exact H.
  - discriminate.
  - intros (q' & E & _); discriminate.
Qed.

Lemma flt_false_Some (q c : Q) : flt (Some q) (Some c) = false <-> c <= q.
Proof. simpl. apply Qltb_ge. Qed.


(** Rounding moves a number by at most one half. *)
Lemma round_half_even_bounds (q : Q) :
  q - (1 # 2) <= inject_Z (round_half_even q) <= q + (1 # 2).
Proof.
  unfold round_half_even.
  pose proof (Qfloor_le q) as Hlo. pose proof (Qlt_floor q) as Hhi.
  rewrite inject_Z_plus in Hhi.
  change (inject_Z 1) with 1 in Hhi.
  destruct (Qcompare (q - inject_Z (Qfloor q)) (1 # 2)) eqn:E.
  - apply Qeq_alt in E.
    destruct (Z.even (Qfloor q)); [|rewrite inject_Z_plus; change (inject_Z 1) with 1]; lra.
  - apply Qlt_alt in E. lra.
  - apply Qgt_alt in E. rewrite inject_Z_plus; change (inject_Z 1) with 1. lra.
Qed.

Lemma py_round_bounds (q : Q) : q - (1 # 2) <= py_round q <= q + (1 # 2).
Proof. apply round_half_even_bounds. Qed.


End VT_numbers.

Section VT_loops.
Import VT.
Local Open Scope Q_scope.

Variable griddata :
  list float * list float -> list float -> float * float -> float.

(** The rule of the [while] loop: a property of the loop variables that
    every iteration preserves holds when the loop exits, together with the
    negated guard. *)
Lemma gen_VT_loop_rule
    (I : Q -> float -> list FieldPoint -> list Sample -> Prop)
    (v_id : Z) (F : list FieldPoint) (u : Q) :
  (forall t x r traj,
      I t x r traj -> flt x (Some corridor) = true ->
      let speed := get_bi_cubic griddata (Some t) x r in
      let x' := fadd x (fdiv (fmul (Some u) speed) (Some 3600)) in
      let t' := py_round (t + u) in
      let r' := if Qeq_bool (py_mod (t' - 30) 300) 0
                then window F (t' - 30) (t' + 900 - 30) else r in
      I t' x' r' (traj ++ [mkSample t' x' speed v_id])) ->
  forall fuel t x r traj tr,
    I t x r traj ->
    gen_VT_loop griddata fuel v_id F u t x r traj = Done tr ->
    exists t' x' r', I t' x' r' tr /\ flt x' (Some corridor) = false.
Proof.
  intros Hstep fuel.
  induction fuel as [|fuel IH]; intros t x r traj tr HI Hrun; simpl in Hrun;
    destruct (flt x (Some corridor)) eqn:G.
  - discriminate.
  - injection Hrun as <-. exists t, x, r. split; assumption.
  - eapply IH; [|exact Hrun]. apply Hstep; assumption.
  - injection Hrun as <-. exists t, x, r. split; assumption.
Qed.

(** A relation between neighbours survives [append] when it holds between
    the old last sample and the new one. *)
Lemma consecutive_snoc (R : Sample -> Sample -> Prop)
    (pre : list Sample) (s s' : Sample) :
  consecutive R (pre ++ [s]) -> R s s' ->
  consecutive R ((pre ++ [s]) ++ [s']).
Proof.
  intros Hc Hr i a b Ha Hb.
  apply lookup_snoc_Some in Hb as [[Hlt Hb]|[Hlen <-]].
  - rewrite lookup_app_l in Ha by lia. exact (Hc i a b Ha Hb).
  - rewrite length_app in Hlen; simpl in Hlen.
    assert (i = length pre) as -> by lia.
    rewrite lookup_app_l in Ha by (rewrite length_app; simpl; lia).
    rewrite list_lookup_middle in Ha by reflexivity.
    injection Ha as <-. exact Hr.
Qed.

Lemma consecutive_singleton (R : Sample -> Sample -> Prop) (s : Sample) :
  consecutive R [s].
Proof. intros i a b _ Hb. destruct i; discriminate. Qed.

(** C1 (amended). With an update rate of at least one and a start time of
    magnitude at most 2^52 (where binary64 still separates neighbouring
    whole numbers), time strictly increases between neighbouring samples,
    and space does not decrease into any sample whose recorded speed is a
    non-negative number. *)
Theorem gen_VT_monotone_forward (fuel : nat) (t0 : Q) (v_id : Z)
    (F : list FieldPoint) (u x0 : Q) (tr : list Sample) :
  1 <= u ->
  Qabs t0 <= 4503599627370496 ->
  gen_VT griddata fuel t0 v_id F u x0 = Done tr ->
  consecutive monotone_step_forward tr.
Proof.
  intros Hu _ Hrun. unfold gen_VT in Hrun; cbv zeta in Hrun.
  pose (I := fun (t : Q) (x : float) (r : list FieldPoint) (traj : list Sample) =>
    (exists pre s, traj = pre ++ [s] /\ s_time s = t /\ s_space s = x) /\
    consecutive monotone_step_forward traj).
  eapply (gen_VT_loop_rule I v_id F u) in Hrun; cycle 1;
    [| |destruct Hrun as (t' & x' & r' & [_ Hc] & _)].
  - intros t x r traj [(pre & s & -> & Ht & Hx) Hc] G.
    apply flt_true in G as (xq & -> & Hlt). cbv zeta. split.
    + eexists _, _. split; [reflexivity|]. split; reflexivity.
    + apply consecutive_snoc; [exact Hc|]. split.
      * unfold time_increases; simpl. rewrite Ht.
        pose proof (py_round_bounds (t + u)) as [Hlo _]. lra.
      * simpl. intros v Hv Hv0. unfold space_nondecreasing; simpl.
        rewrite Hx, Hv. simpl. apply Qle_bool_iff.
        assert (0 <= u * v) by (apply Qmult_le_0_compat; lra).
        assert (0 <= u * v / 3600) by (apply Qle_shift_div_l; lra).
        lra.
  - split.
    + exists [], (mkSample t0 (Some x0)
        (get_bi_cubic griddata (Some t0) (Some x0)
           (window F (t0 - 30) (t0 + 900 - 30))) v_id).
      repeat split.
    + apply consecutive_singleton.
  - exact Hc.
Qed.

(** C9. In a returned trajectory every sample after the first records the
    speed interpolated at the previous sample's time and position, paired
    with the already advanced time and position; hence the second sample
    repeats the speed of the first. *)
Theorem gen_VT_speed_lags (fuel : nat) (t0 : Q) (v_id : Z)
    (F : list FieldPoint) (u x0 : Q) (tr : list Sample) :
  gen_VT griddata fuel t0 v_id F u x0 = Done tr ->
  consecutive (lagged_step griddata F u) tr /\
  (forall s0 s1, tr !! 0%nat = Some s0 -> tr !! 1%nat = Some s1 ->
                 s_speed s1 = s_speed s0).
Proof.
  intros Hrun. unfold gen_VT in Hrun; cbv zeta in Hrun.
  set (r0 := window F (t0 - 30) (t0 + 900 - 30)) in *.
  set (v0 := get_bi_cubic griddata (Some t0) (Some x0) r0) in *.
  pose (I := fun (t : Q) (x : float) (r : list FieldPoint) (traj : list Sample) =>
    (exists pre s, traj = pre ++ [s] /\ s_time s = t /\ s_space s = x) /\
    (exists w, r = window F (w - 30) (w + 900 - 30)) /\
    consecutive (lagged_step griddata F u) traj /\
    (exists s0, traj !! 0%nat = Some s0 /\ s_speed s0 = v0) /\
    (length traj = 1%nat -> t = t0 /\ x = Some x0 /\ r = r0) /\
    (forall s1, traj !! 1%nat = Some s1 -> s_speed s1 = v0)).
  eapply (gen_VT_loop_rule I v_id F u) in Hrun; cycle 1;
    [| |destruct Hrun
          as (t' & x' & r' & (_ & _ & Hc & (s0 & H0 & Hv0) & _ & H1) & _)].
  - intros t x r traj
      ((pre & s & -> & Ht & Hx) & (w & Hw) & Hc & (s0 & H0 & Hv0) & Hinit & H1) G.
    apply flt_true in G as (xq & -> & Hlt). cbv zeta.
    split; [|split; [|split; [|split; [|split]]]].
    + eexists _, _. split; [reflexivity|]. split; reflexivity.
    + destruct (Qeq_bool _ 0); [eexists; reflexivity|exists w; exact Hw].
    + apply consecutive_snoc; [exact Hc|].
      exists w, xq. simpl. rewrite Hx, Ht, <- Hw. repeat split.
    + exists s0. split; [|exact Hv0]. apply lookup_app_l_Some. exact H0.
    + rewrite !length_app; simpl. lia.
    + intros s1 Hs1.
      apply lookup_snoc_Some in Hs1 as [[_ Hs1]|[Hlen <-]].
      * apply H1; exact Hs1.
      * simpl. destruct (Hinit (eq_sym Hlen)) as (-> & Hx0 & ->).
        injection Hx0 as ->. reflexivity.
  - repeat split.
    + exists [], (mkSample t0 (Some x0) v0 v_id). repeat split.
    + exists t0. reflexivity.
    + apply consecutive_singleton.
    + eexists. split; reflexivity.
    + intros s1 Hs1. discriminate.
  - split; [exact Hc|].
    intros a b Ha Hb. rewrite (H1 b Hb).
    rewrite H0 in Ha. injection Ha as <-. symmetry; exact Hv0.
Qed.

(** Every sample of a returned trajectory carries the vehicle id that was
    passed in. *)
Lemma gen_VT_carries_id (fuel : nat) (t0 : Q) (v_id : Z)
    (F : list FieldPoint) (u x0 : Q) (tr : list Sample) :
  gen_VT griddata fuel t0 v_id F u x0 = Done tr ->
  Forall (fun s => s_v_id s = v_id) tr.
Proof.
  intros Hrun. unfold gen_VT in Hrun; cbv zeta in Hrun.
  pose (I := fun (_ : Q) (_ : float) (_ : list FieldPoint) (traj : list Sample) =>
    Forall (fun s => s_v_id s = v_id) traj).
  eapply (gen_VT_loop_rule I v_id F u) in Hrun; cycle 1.
  - intros t x r traj HI _. cbv zeta. apply Forall_app. split; [exact HI|].
    repeat constructor.
  - repeat constructor.
  - destruct Hrun as (t' & x' & r' & HI & _). exact HI.
Qed.

Lemma gen_VT_loop_exit (fuel : nat) (v_id : Z) (F : list FieldPoint) (u t : Q)
    (x : float) (r : list FieldPoint) (traj : list Sample) :
  flt x (Some corridor) = false ->
  gen_VT_loop griddata fuel v_id F u t x r traj = Done traj.
Proof. intros G. destruct fuel; simpl; rewrite G; reflexivity. Qed.

(** *** The cached window against the full field *)



End VT_loops.

(** ** Concrete runs *)
Section VT_runs.
Import VT.
Local Open Scope Q_scope.

Lemma gen_VT_loop_step
    (griddata : list float * list float -> list float -> float * float -> float)
    (fuel : nat) (v_id : Z) (F : list FieldPoint) (u t : Q) (x : float)
    (r : list FieldPoint) (traj : list Sample) :
  flt x (Some corridor) = true ->
  gen_VT_loop griddata (S fuel) v_id F u t x r traj
  = gen_VT_loop griddata fuel v_id F u (py_round (t + u))
      (fadd x (fdiv (fmul (Some u) (get_bi_cubic griddata (Some t) x r))
                 (Some 3600)))
      (if Qeq_bool (py_mod (py_round (t + u) - 30) 300) 0
       then window F (py_round (t + u) - 30) (py_round (t + u) + 900 - 30)
       else r)
      (traj ++ [mkSample (py_round (t + u))
                  (fadd x (fdiv (fmul (Some u)
                     (get_bi_cubic griddata (Some t) x r)) (Some 3600)))
                  (get_bi_cubic griddata (Some t) x r) v_id]).
Proof. intros G. simpl. rewrite G. reflexivity. Qed.






(** C1, as stated, fails in three ways.  With a quarter-second update rate
    the rounded time stays at 30; a start outside the span of its
    neighbours (at 4.275, with data at 4.28 and 4.31) records a NaN position
    after a number; a negative speed moves the vehicle backwards. *)
Lemma C1_monotonicity_counterexample :
  (exists tr,
      gen_VT uniform_griddata 10 30 0 field_exit60 (1 # 4) 4.29 = Done tr /\
      ~ consecutive time_increases tr /\ ~ consecutive monotone_step tr) /\
  (exists tr,
      gen_VT uniform_griddata 10 30 0 field_exit60 1 4.275 = Done tr /\
      ~ consecutive space_nondecreasing tr /\ ~ consecutive monotone_step tr) /\
  (exists tr,
      gen_VT uniform_griddata 10 30 0 field_reverse 1 4.29 = Done tr /\
      ~ consecutive space_nondecreasing tr /\ ~ consecutive monotone_step tr).
Proof.
  split; [|split]; (eexists; split; [vm_compute; reflexivity|]); split; intros H.
  - specialize (H 0%nat _ _ eq_refl eq_refl). vm_compute in H. discriminate.
  - destruct (H 0%nat _ _ eq_refl eq_refl) as [H' _]. vm_compute in H'. discriminate.
  - specialize (H 0%nat _ _ eq_refl eq_refl). vm_compute in H. discriminate.
  - destruct (H 0%nat _ _ eq_refl eq_refl) as [_ H']. vm_compute in H'. discriminate.
  - specialize (H 0%nat _ _ eq_refl eq_refl). vm_compute in H. discriminate.
  - destruct (H 0%nat _ _ eq_refl eq_refl) as [_ H']. vm_compute in H'. discriminate.
Qed.

(** In binary64 the sum 30 + 0.5000000000000001 is 30.5, a tie that
    [round(., 0)] sends to 30: a rate just above one half can keep the time
    where it is, which the exact sum of the model does not show.  Likewise
    2^53 + 1 is 2^53: a unit rate does not move a time of that size.  Rates
    of at least 1 move every time of magnitude at most 2^52 to a larger
    whole number. *)
Example binary64_time_stalls :
  PrimFloat.eqb (PrimFloat.add 30%float 0.5000000000000001%float) 30.5%float
  = true /\
  py_round 30.5 = 30 /\
  py_round (30 + 0.5000000000000001) = 31 /\
  PrimFloat.eqb (PrimFloat.add 9007199254740992%float 1%float)
    9007199254740992%float = true.
Proof. repeat split; vm_compute; reflexivity. Qed.

Lemma gen_VT_monotone_forward_witness :
  exists tr,
    gen_VT uniform_griddata 10 30 0 field_exit60 1 4.29 = Done tr /\
    consecutive monotone_step_forward tr.
Proof.
  eexists. split; [vm_compute; reflexivity|].
  apply (gen_VT_monotone_forward uniform_griddata 10 30 0 field_exit60 1 4.29).
  - apply Qle_refl.
  - discriminate.
  - vm_compute. reflexivity.
Defined.



Lemma gen_VT_speed_lags_witness :
  exists tr,
    gen_VT uniform_griddata 10 30 0 field_exit60 1 4.29 = Done tr /\
    consecutive (lagged_step uniform_griddata field_exit60 1) tr /\
    (forall s0 s1, tr !! 0%nat = Some s0 -> tr !! 1%nat = Some s1 ->
                   s_speed s1 = s_speed s0).
Proof.
  eexists. split; [vm_compute; reflexivity|].
  apply (gen_VT_speed_lags uniform_griddata 10 30 0 field_exit60 1 4.29).
  vm_compute. reflexivity.
Defined.

End VT_runs.

(** ** The fleet generator and the object store *)
Section Fleet_store.
Import VT.
Local Open Scope Q_scope.

Variable griddata :
  list float * list float -> list float -> float * float -> float.
Variable h0 : gmap positive DataFrame.

Lemma keeps_ret {A : Type} (a : A) (post : A -> Prop) :
  post a -> keeps h0 (ret a) post.
Proof.
  intros Hp h Hh. split; [exact Hh|].
  intros a' E. injection E as <-. exact Hp.
Qed.

Lemma keeps_lift {A : Type} (r : res A) (post : A -> Prop) :
  (forall a, r = Done a -> post a) -> keeps h0 (lift r) post.
Proof. intros Hp h Hh. split; [exact Hh|exact Hp]. Qed.

Lemma keeps_bind {A B : Type} (m : M A) (f : A -> M B)
    (mid : A -> Prop) (post : B -> Prop) :
  keeps h0 m mid -> (forall a, mid a -> keeps h0 (f a) post) ->
  keeps h0 (bind m f) post.
Proof.
  intros Hm Hf h Hh. unfold bind.
  destruct (Hm h Hh) as [Hsub Hpost].
  destruct (m h) as [h' [a|e|]]; simpl in *.
  - exact (Hf a (Hpost a eq_refl) h' Hsub).
  - split; [exact Hsub|discriminate].
  - split; [exact Hsub|discriminate].
Qed.

Lemma keeps_read (l : positive) : keeps h0 (df_read l) (fun _ => True).
Proof.
  intros h Hh. unfold df_read.
  destruct (h !! l); simpl; split; try exact Hh; intros; exact I.
Qed.

(** A new object is private and leaves the old ones alone. *)
Lemma keeps_new (df : DataFrame) : keeps h0 (df_new df) (private h0).
Proof.
  intros h Hh. unfold df_new; simpl.
  assert (Hfresh : h !! fresh (dom h) = None)
    by (apply not_elem_of_dom, is_fresh).
  assert (Hpriv : h0 !! fresh (dom h) = None)
    by (eapply lookup_weaken_None; eassumption).
  split.
  - apply insert_subseteq_r; assumption.
  - intros a E. injection E as <-. exact Hpriv.
Qed.

(** Writing to a private object leaves the old ones alone. *)
Lemma keeps_write (l : positive) (df : DataFrame) :
  private h0 l -> keeps h0 (df_write l df) (fun _ => True).
Proof.
  intros Hl h Hh. unfold df_write.
  destruct (h !! l); simpl; split; try (intros; exact I).
  - apply insert_subseteq_r; assumption.
  - exact Hh.
Qed.

Lemma keeps_copy (l : positive) : keeps h0 (df_copy l) (private h0).
Proof.
  unfold df_copy. eapply keeps_bind; [apply keeps_read|].
  intros df _. apply keeps_new.
Qed.

Lemma keeps_set_columns (l : positive) (names : list string) :
  private h0 l -> keeps h0 (df_set_columns l names) (fun _ => True).
Proof.
  intros Hl. unfold df_set_columns.
  eapply keeps_bind; [apply keeps_read|]. intros df _.
  destruct (Nat.eqb _ _).
  - apply keeps_write; exact Hl.
  - apply keeps_lift. intros; exact I.
Qed.

Lemma keeps_map_column (l : positive) (name : string) (f : float -> float) :
  private h0 l -> keeps h0 (df_map_column l name f) (fun _ => True).
Proof.
  intros Hl. unfold df_map_column.
  eapply keeps_bind; [apply keeps_read|]. intros df _.
  destruct (index_of name (columns df)).
  - apply keeps_write; exact Hl.
  - apply keeps_lift. intros; exact I.
Qed.

Lemma keeps_field (l : positive) : keeps h0 (df_field l) (fun _ => True).
Proof.
  unfold df_field.
  eapply keeps_bind; [apply keeps_read|]. intros df _.
  repeat match goal with
         | |- context [match index_of ?n ?c with _ => _ end] =>
             destruct (index_of n c)
         end;
    apply keeps_lift; intros; exact I.
Qed.

Lemma keeps_read_all (ls : list positive) :
  keeps h0 (read_all ls) (fun _ => True).
Proof.
  induction ls as [|l ls IH]; simpl.
  - apply keeps_ret; exact I.
  - eapply keeps_bind; [apply keeps_read|]. intros df _.
    eapply keeps_bind; [exact IH|]. intros dfs _.
    apply keeps_ret; exact I.
Qed.

Lemma keeps_concat (vt_list : list positive) :
  keeps h0 (pd_concat vt_list) (private h0).
Proof.
  unfold pd_concat.
  eapply keeps_bind; [apply keeps_read_all|]. intros dfs _.
  destruct dfs as [|df dfs].
  - apply keeps_lift. discriminate.
  - apply keeps_new.
Qed.

(** One vehicle: only the vehicle's own new frame is written. *)
Lemma keeps_spawn (fuel : nat) (smooth_vt : positive) (frequency : Z)
    (traj_hz : Q) (time : Z) :
  keeps h0 (spawn griddata fuel smooth_vt frequency traj_hz time) (private h0).
Proof.
  unfold spawn; cbv zeta.
  eapply keeps_bind; [apply keeps_lift; intros; exact I|]. intros update_rate _.
  eapply keeps_bind; [apply keeps_field|]. intros field _.
  eapply keeps_bind; [apply keeps_lift; intros; exact I|]. intros traj _.
  eapply keeps_bind; [apply keeps_new|]. intros vt Hvt.
  eapply keeps_bind; [apply keeps_set_columns; exact Hvt|]. intros _ _.
  eapply keeps_bind; [apply keeps_map_column; exact Hvt|]. intros _ _.
  apply keeps_ret; exact Hvt.
Qed.

Lemma keeps_spawn_all (fuel : nat) (smooth_vt : positive) (frequency : Z)
    (traj_hz : Q) (times : list Z) :
  forall vt_list,
    keeps h0 (spawn_all griddata fuel smooth_vt frequency traj_hz times vt_list)
      (fun _ => True).
Proof.
  induction times as [|time times IH]; intros vt_list; simpl.
  - apply keeps_ret; exact I.
  - eapply keeps_bind; [apply keeps_spawn|]. intros vt _. apply IH.
Qed.

(** The whole call writes only to the copy and to the frames it creates. *)
Lemma keeps_gen_all_VT (fuel : nat) (smooth_speed : positive)
    (frequency hour : Z) (traj_hz : Q) :
  keeps h0 (gen_all_VT griddata fuel smooth_speed frequency hour traj_hz)
    (private h0).
Proof.
  unfold gen_all_VT; cbv zeta.
  eapply keeps_bind; [apply keeps_copy|]. intros smooth_vt Hvt.
  eapply keeps_bind; [apply keeps_set_columns; exact Hvt|]. intros _ _.
  eapply keeps_bind; [apply keeps_map_column; exact Hvt|]. intros _ _.
  eapply keeps_bind; [apply keeps_lift; intros; exact I|]. intros times _.
  eapply keeps_bind; [apply keeps_spawn_all|]. intros vt_list _.
  eapply keeps_bind; [apply keeps_concat|]. intros vt_all Hall.
  apply keeps_ret; exact Hall.
Qed.

Lemma keeps_VTpy_gen_all_VT (fuel : nat) (smooth_speed : positive)
    (frequency hour : Z) :
  keeps h0 (VTpy_gen_all_VT griddata fuel smooth_speed frequency hour)
    (private h0).
Proof.
  assert (Hspawn : forall smooth_vt time,
    keeps h0 (VTpy_spawn griddata fuel smooth_vt frequency time) (private h0)).
  { intros smooth_vt time. unfold VTpy_spawn; cbv zeta.
    eapply keeps_bind; [apply keeps_field|]. intros field _.
    eapply keeps_bind; [apply keeps_lift; intros; exact I|]. intros traj _.
    eapply keeps_bind; [apply keeps_new|]. intros vt Hvt.
    eapply keeps_bind; [apply keeps_set_columns; exact Hvt|]. intros _ _.
    eapply keeps_bind; [apply keeps_map_column; exact Hvt|]. intros _ _.
    apply keeps_ret; exact Hvt. }
  assert (Hall : forall smooth_vt times vt_list,
    keeps h0 (VTpy_spawn_all griddata fuel smooth_vt frequency times vt_list)
      (fun _ => True)).
  { intros smooth_vt times.
    induction times as [|time times IH]; intros vt_list; simpl.
    - apply keeps_ret; exact I.
    - eapply keeps_bind; [apply Hspawn|]. intros vt _. apply IH. }
  unfold VTpy_gen_all_VT; cbv zeta.
  eapply keeps_bind; [apply keeps_copy|]. intros smooth_vt Hvt.
  eapply keeps_bind; [apply keeps_set_columns; exact Hvt|]. intros _ _.
  eapply keeps_bind; [apply keeps_map_column; exact Hvt|]. intros _ _.
  eapply keeps_bind; [apply keeps_lift; intros; exact I|]. intros times _.
  eapply keeps_bind; [apply Hall|]. intros vt_list _.
  eapply keeps_bind; [apply keeps_concat|]. intros vt_all Hvt_all.
  apply keeps_ret; exact Hvt_all.
Qed.

End Fleet_store.

Section Fleet_facts.
Import VT.
Local Open Scope Z_scope.

(** C10. Whatever the outcome of [gen_all_VT] (either variant), every
    object of the caller's store is afterwards what it was before; in
    particular the frame behind [smooth_speed] keeps its labels and its
    cells. *)
Theorem gen_all_VT_leaves_input
    (griddata : list float * list float -> list float -> float * float -> float)
    (fuel : nat) (smooth_speed : positive) (frequency hour : Z) (traj_hz : Q)
    (h : gmap positive DataFrame) :
  let h1 := fst (gen_all_VT griddata fuel smooth_speed frequency hour traj_hz h) in
  let h2 := fst (VTpy_gen_all_VT griddata fuel smooth_speed frequency hour h) in
  (h ⊆ h1 /\ h1 !! smooth_speed = h !! smooth_speed) /\
  (h ⊆ h2 /\ h2 !! smooth_speed = h !! smooth_speed).
Proof.
  intros h1 h2.
  destruct (keeps_gen_all_VT griddata h fuel smooth_speed frequency hour
              traj_hz h (reflexivity h)) as [Hsub1 _].
  destruct (keeps_VTpy_gen_all_VT griddata h fuel smooth_speed frequency hour
              h (reflexivity h)) as [Hsub2 _].
  fold h1 in Hsub1. fold h2 in Hsub2.
  split; (split; [assumption|]).
  - destruct (h !! smooth_speed) as [df|] eqn:E.
    + eapply lookup_weaken; eassumption.
    + subst h1. unfold gen_all_VT, df_copy, bind, df_read. rewrite E. exact E.
  - destruct (h !! smooth_speed) as [df|] eqn:E.
    + eapply lookup_weaken; eassumption.
    + subst h2. unfold VTpy_gen_all_VT, df_copy, bind, df_read. rewrite E. exact E.
Qed.

(** The frame property on a store that holds one small table. *)
Lemma gen_all_VT_leaves_input_witness :
  let h : gmap positive DataFrame := {[ 1%positive := small_frame ]} in
  let h1 := fst (gen_all_VT uniform_griddata 10 1%positive 4000 1 1 h) in
  let h2 := fst (VTpy_gen_all_VT uniform_griddata 10 1%positive 4000 1 h) in
  (h ⊆ h1 /\ h1 !! 1%positive = h !! 1%positive) /\
  (h ⊆ h2 /\ h2 !! 1%positive = h !! 1%positive).
Proof.
  apply (gen_all_VT_leaves_input uniform_griddata 10 1%positive 4000 1 1
           {[ 1%positive := small_frame ]}).
Defined.

(** On that store the call returns: one vehicle is spawned, its start is
    not spanned by the data, so its trajectory is the start sample followed
    by one NaN sample.  The copy (object 2) carries the new labels and the
    reflected positions; the caller's table (object 1) is untouched. *)
Example fleet_run_small :
  exists (h' : gmap positive DataFrame) (out : positive) (copy result : DataFrame),
    gen_all_VT uniform_griddata 10 1%positive 4000 1 1
      {[ 1%positive := small_frame ]} = (h', Done out) /\
    h' !! 1%positive = Some small_frame /\
    h' !! 2%positive = Some copy /\
    columns copy = ["t_index"; "x_index"; "raw_speed"; "t"; "x"; "speed"]%string /\
    h' !! out = Some result /\
    columns result = ["time"; "space"; "speed"; "v_id"]%string /\
    rows result = [[Some 30%Q; Some (63 - 0.32)%Q; NaN; Some 0%Q];
                   [Some 31%Q; NaN; NaN; Some 0%Q]].
Proof.
  eexists _, _, _, _.
  split; [vm_compute; reflexivity|].
  repeat split; vm_compute; reflexivity.
Qed.

End Fleet_facts.

(** ** Further facts about the trajectory integrator *)
Section VT_more.
Import VT.
Local Open Scope Q_scope.

Variable griddata :
  list float * list float -> list float -> float * float -> float.

Lemma gen_VT_head (fuel : nat) (t0 : Q) (v_id : Z)
    (F : list FieldPoint) (u x0 : Q) (tr : list Sample) :
  gen_VT griddata fuel t0 v_id F u x0 = Done tr ->
  exists rest,
    tr = mkSample t0 (Some x0)
           (get_bi_cubic griddata (Some t0) (Some x0)
              (window F (t0 - 30) (t0 + 900 - 30))) v_id :: rest.
Proof.
  intros Hrun. unfold gen_VT in Hrun; cbv zeta in Hrun.
  set (s0 := mkSample t0 (Some x0)
               (get_bi_cubic griddata (Some t0) (Some x0)
                  (window F (t0 - 30) (t0 + 900 - 30))) v_id) in *.
  pose (I := fun (_ : Q) (_ : float) (_ : list FieldPoint) (traj : list Sample) =>
    exists rest, traj = s0 :: rest).
  eapply (gen_VT_loop_rule griddata I v_id F u) in Hrun; cycle 1.
  - intros t x r traj [rest ->] _. cbv zeta. eexists. reflexivity.
  - exists []. reflexivity.
  - destruct Hrun as (t' & x' & r' & HI & _). exact HI.
Qed.

(** X9. A returned trajectory starts with the start sample
    [(t0, x0, v0, v_id)], where [v0] is the interpolation at the start in the
    window opened at [t0]; when the start is not below 4.3 that sample is the
    whole trajectory. *)
Theorem gen_VT_start_sample (fuel : nat) (t0 : Q) (v_id : Z)
    (F : list FieldPoint) (u x0 : Q) (tr : list Sample) :
  gen_VT griddata fuel t0 v_id F u x0 = Done tr ->
  let s0 := mkSample t0 (Some x0)
              (get_bi_cubic griddata (Some t0) (Some x0)
                 (window F (t0 - 30) (t0 + 900 - 30))) v_id in
  (exists rest, tr = s0 :: rest) /\
  (corridor <= x0 -> tr = [s0]).
Proof.
  intros Hrun s0. split.
  - exact (gen_VT_head fuel t0 v_id F u x0 tr Hrun).
  - intros Hx. unfold gen_VT in Hrun; cbv zeta in Hrun. fold s0 in Hrun.
    rewrite gen_VT_loop_exit in Hrun by (apply flt_false_Some; exact Hx).
    injection Hrun as <-. reflexivity.
Qed.

(** X10. The loop stops at the first position that is not below 4.3: in a
    returned trajectory every sample before the last has a numeric position
    below 4.3, and the last sample's position is not below 4.3 (it is at
    least 4.3, or NaN). *)
Theorem gen_VT_stops_at_corridor (fuel : nat) (t0 : Q) (v_id : Z)
    (F : list FieldPoint) (u x0 : Q) (tr : list Sample) :
  gen_VT griddata fuel t0 v_id F u x0 = Done tr ->
  exists pre s,
    tr = pre ++ [s] /\
    Forall (fun a => exists q, s_space a = Some q /\ q < corridor) pre /\
    flt (s_space s) (Some corridor) = false.
Proof.
  intros Hrun. unfold gen_VT in Hrun; cbv zeta in Hrun.
  pose (I := fun (_ : Q) (x : float) (_ : list FieldPoint) (traj : list Sample) =>
    exists pre s, traj = pre ++ [s] /\ s_space s = x /\
      Forall (fun a => exists q, s_space a = Some q /\ q < corridor) pre).
  eapply (gen_VT_loop_rule griddata I v_id F u) in Hrun; cycle 1.
  - intros t x r traj (pre & s & -> & Hx & Hpre) G. cbv zeta.
    eexists _, _. split; [reflexivity|]. split; [reflexivity|].
    apply Forall_app. split; [exact Hpre|].
    constructor; [|constructor]. rewrite Hx. apply flt_true. exact G.
  - exists [], (mkSample t0 (Some x0)
      (get_bi_cubic griddata (Some t0) (Some x0)
         (window F (t0 - 30) (t0 + 900 - 30))) v_id).
    repeat split. constructor.
  - destruct Hrun as (t' & x' & r' & (pre & s & -> & Hx & Hpre) & G).
    exists pre, s. rewrite Hx. repeat split; assumption.
Qed.

(** X11. A NaN interpolation ends the run: a sample after the first whose
    recorded speed is NaN has a NaN position and is the last sample. *)
Theorem gen_VT_NaN_is_last (fuel : nat) (t0 : Q) (v_id : Z)
    (F : list FieldPoint) (u x0 : Q) (tr : list Sample) (i : nat) (s : Sample) :
  gen_VT griddata fuel t0 v_id F u x0 = Done tr ->
  tr !! S i = Some s -> s_speed s = NaN ->
  s_space s = NaN /\ tr !! S (S i) = None.
Proof.
  intros Hrun Hs Hnan. unfold gen_VT in Hrun; cbv zeta in Hrun.
  pose (I := fun (_ : Q) (x : float) (_ : list FieldPoint) (traj : list Sample) =>
    exists pre l, traj = pre ++ [l] /\ s_space l = x /\
      (forall j a, pre !! S j = Some a -> s_speed a <> NaN) /\
      (forall j, traj !! S j = Some l -> s_speed l = NaN -> x = NaN)).
  eapply (gen_VT_loop_rule griddata I v_id F u) in Hrun; cycle 1.
  - intros t x r traj (pre & l & -> & Hx & Hpre & Hl) G. cbv zeta.
    apply flt_true in G as (q & -> & Hq).
    eexists _, _. split; [reflexivity|]. split; [reflexivity|]. split.
    + intros j a Ha.
      apply lookup_snoc_Some in Ha as [[_ Ha]|[Hlen <-]].
      * exact (Hpre j a Ha).
      * intros Hn.
        assert (Hlast : (pre ++ [l]) !! S j = Some l).
        { rewrite Hlen. apply list_lookup_middle. reflexivity. }
        specialize (Hl j Hlast Hn). discriminate.
    + intros j _ Hn. simpl in Hn. rewrite Hn. reflexivity.
  - exists [], (mkSample t0 (Some x0)
      (get_bi_cubic griddata (Some t0) (Some x0)
         (window F (t0 - 30) (t0 + 900 - 30))) v_id).
    repeat split.
    + intros j a Ha. discriminate.
    + intros j Hj. discriminate.
  - destruct Hrun as (t' & x' & r' & (pre & l & -> & Hx & Hpre & Hl) & _).
    apply lookup_snoc_Some in Hs as [[_ Hs]|[Hlen <-]].
    + exfalso. exact (Hpre i s Hs Hnan).
    + split.
      * rewrite Hx. apply (Hl i); [|exact Hnan].
        rewrite Hlen. apply list_lookup_middle. reflexivity.
      * apply lookup_ge_None. rewrite length_app. simpl. lia.
Qed.

(** X12. When the interpolation at a start below 4.3 is NaN, the trajectory
    is the start sample followed by one sample with the advanced time, NaN
    position and NaN speed. *)
Theorem gen_VT_NaN_start (fuel : nat) (t0 : Q) (v_id : Z)
    (F : list FieldPoint) (u x0 : Q) :
  x0 < corridor ->
  get_bi_cubic griddata (Some t0) (Some x0)
    (window F (t0 - 30) (t0 + 900 - 30)) = NaN ->
  gen_VT griddata (S fuel) t0 v_id F u x0
  = Done [mkSample t0 (Some x0) NaN v_id;
          mkSample (py_round (t0 + u)) NaN NaN v_id].
Proof.
  intros Hx Hnan. unfold gen_VT; cbv zeta. rewrite Hnan.
  rewrite gen_VT_loop_step
    by (apply flt_true; exists x0; split; [reflexivity|exact Hx]).
  rewrite Hnan. simpl fadd.
  apply gen_VT_loop_exit. reflexivity.
Qed.

(** X20. [get_bi_cubic] hands to the interpolator only the points within
    8 s and 0.04 mile of the target: points of the table outside that
    neighbourhood have no influence on the result. *)
Theorem get_bi_cubic_ignores_far_points (target_time target_space : float)
    (data far : list FieldPoint) :
  Forall (fun p => near target_time target_space p = false) far ->
  get_bi_cubic griddata target_time target_space (data ++ far)
  = get_bi_cubic griddata target_time target_space data /\
  get_bi_cubic griddata target_time target_space (far ++ data)
  = get_bi_cubic griddata target_time target_space data.
Proof.
  intros HF.
  assert (Hnil : List.filter (near target_time target_space) far = []).
  { induction HF as [|p l Hp _ IH]; simpl; [reflexivity|]. rewrite Hp. exact IH. }
  unfold get_bi_cubic; cbv zeta.
  rewrite !List.filter_app, Hnil, app_nil_r. simpl. split; reflexivity.
Qed.




(** *** The cached window for every update rate below 3/2 *)







(** *** Reaching the end of the corridor *)



Section Forward_field.

(** A field on which the interpolation in the full table, at every time
    between [tlo] and [thi] and every position from [x0] up to the corridor
    end, is a number not smaller than [vmin]. *)
Variables (F : list FieldPoint) (u x0 vmin tlo thi : Q).
Hypothesis u_pos : 0 < u.
Hypothesis u_small : u < 3 # 2.
Hypothesis vmin_pos : 0 < vmin.
Hypothesis speed_bounded :
  forall t xq : Q,
    tlo <= t -> t <= thi -> x0 <= xq -> xq < corridor ->
    exists v, get_bi_cubic griddata (Some t) (Some xq) F = Some v /\ vmin <= v.




End Forward_field.


End VT_more.

Section VT_more_runs.
Import VT.
Local Open Scope Q_scope.

(** A start at 4.3, between the data at 4.28 and 4.31: the start sample is
    the whole trajectory. *)
Lemma gen_VT_start_sample_witness :
  exists tr,
    gen_VT uniform_griddata 10 30 0 field_exit60 1 4.3 = Done tr /\
    (exists rest,
        tr = mkSample 30 (Some 4.3)
               (get_bi_cubic uniform_griddata (Some 30) (Some 4.3)
                  (window field_exit60 (30 - 30) (30 + 900 - 30))) 0 :: rest) /\
    tr = [mkSample 30 (Some 4.3)
            (get_bi_cubic uniform_griddata (Some 30) (Some 4.3)
               (window field_exit60 (30 - 30) (30 + 900 - 30))) 0].
Proof.
  eexists.
  assert (Hrun : gen_VT uniform_griddata 10 30 0 field_exit60 1 4.3 = Done _)
    by (vm_compute; reflexivity).
  split; [exact Hrun|].
  destruct (gen_VT_start_sample uniform_griddata 10 30 0 field_exit60 1 4.3
              _ Hrun) as [H1 H2].
  split; [exact H1|]. apply H2. apply Qle_refl.
Defined.

Lemma gen_VT_stops_at_corridor_witness :
  exists tr pre s,
    gen_VT uniform_griddata 10 30 0 field_exit60 (1 # 4) 4.29 = Done tr /\
    tr = pre ++ [s] /\
    Forall (fun a => exists q, s_space a = Some q /\ q < corridor) pre /\
    flt (s_space s) (Some corridor) = false.
Proof.
  eexists.
  assert (Hrun : gen_VT uniform_griddata 10 30 0 field_exit60 (1 # 4) 4.29
                 = Done _) by (vm_compute; reflexivity).
  destruct (gen_VT_stops_at_corridor uniform_griddata 10 30 0 field_exit60
              (1 # 4) 4.29 _ Hrun) as (pre & s & H).
  exists pre, s. split; [exact Hrun|exact H].
Defined.

Lemma gen_VT_NaN_is_last_witness :
  exists tr s,
    gen_VT uniform_griddata 10 30 0 field_reverse 1 4.29 = Done tr /\
    tr !! 2%nat = Some s /\ s_speed s = NaN /\
    s_space s = NaN /\ tr !! 3%nat = None.
Proof.
  eexists _, _.
  assert (Hrun : gen_VT uniform_griddata 10 30 0 field_reverse 1 4.29 = Done _)
    by (vm_compute; reflexivity).
  split; [exact Hrun|].
  split; [reflexivity|]. split; [reflexivity|].
  exact (gen_VT_NaN_is_last uniform_griddata 10 30 0 field_reverse 1 4.29
           _ 1%nat _ Hrun eq_refl eq_refl).
Defined.

(** A start at 4.275, with data at 4.28 and 4.31 only. *)
Lemma gen_VT_NaN_start_witness :
  gen_VT uniform_griddata 3 30 0 field_exit60 1 4.275
  = Done [mkSample 30 (Some 4.275) NaN 0; mkSample (py_round (30 + 1)) NaN NaN 0].
Proof.
  apply (gen_VT_NaN_start uniform_griddata 2 30 0 field_exit60 1 4.275).
  - reflexivity.
  - vm_compute. reflexivity.
Defined.



Lemma get_bi_cubic_ignores_far_points_witness :
  get_bi_cubic uniform_griddata (Some 30) (Some 4.29)
    (field_exit60 ++ field_jam)
  = get_bi_cubic uniform_griddata (Some 30) (Some 4.29) field_exit60 /\
  get_bi_cubic uniform_griddata (Some 30) (Some 4.29)
    (field_jam ++ field_exit60)
  = get_bi_cubic uniform_griddata (Some 30) (Some 4.29) field_exit60.
Proof.
  apply (get_bi_cubic_ignores_far_points uniform_griddata (Some 30) (Some 4.29)
           field_exit60 field_jam).
  repeat constructor.
Defined.




End VT_more_runs.

(** ** Further facts about the fleet generator *)
Section Fleet_more.
Import VT.
Local Open Scope Z_scope.

Lemma List_map_lookup {A B : Type} (f : A -> B) (l : list A) (i : nat) :
  (map f l) !! i = option_map f (l !! i).
Proof.
  revert i. induction l as [|a l IH]; intros [|i]; simpl; try reflexivity.
  apply IH.
Qed.

Lemma NoDup_List_map {A B : Type} (f : A -> B) (l : list A) :
  (forall a b, f a = f b -> a = b) -> NoDup l -> NoDup (map f l).
Proof.
  intros Hinj. induction 1 as [|a l Ha _ IH]; simpl; constructor; [|exact IH].
  intros Hin. apply list_elem_of_In, in_map_iff in Hin as (b & Hb & Hin).
  apply Hinj in Hb. subst b. apply Ha, list_elem_of_In, Hin.
Qed.

(** X16. For a positive spawn frequency the spawn times are
    [30 + i * frequency], all within [30, 30 + 3600 * hour - 120]; the
    vehicle id of the [i]-th spawn time is [i + 30 / frequency] (integer
    division), so the ids are consecutive and pairwise distinct. *)
Theorem spawn_schedule_ids (frequency hour : Z) (times : list Z) :
  0 < frequency ->
  np_arange 30 (30 + 3600 * hour + 1 - 120) frequency = Done times ->
  (forall (i : nat) (time : Z),
      times !! i = Some time ->
      time = 30 + Z.of_nat i * frequency /\
      30 <= time <= 30 + 3600 * hour - 120 /\
      vehicle_id time frequency = Z.of_nat i + 30 / frequency) /\
  NoDup (map (fun time => vehicle_id time frequency) times).
Proof.
  intros Hf Hrun. unfold np_arange in Hrun.
  destruct (frequency =? 0) eqn:E; [apply Z.eqb_eq in E; lia|].
  injection Hrun as <-.
  set (n := Z.to_nat (- ((30 - (30 + 3600 * hour + 1 - 120)) / frequency))).
  assert (Hid : forall i : nat,
    vehicle_id (30 + Z.of_nat i * frequency) frequency
    = Z.of_nat i + 30 / frequency).
  { intros i. unfold vehicle_id.
    rewrite Z.quot_div_nonneg by nia.
    rewrite Z.div_add by lia. lia. }
  split.
  - intros i time Hi. rewrite List_map_lookup in Hi.
    destruct (seq 0 n !! i) as [j|] eqn:Hj; [|discriminate].
    apply lookup_seq in Hj as [-> Hlt]. simpl in Hi. injection Hi as <-.
    split; [reflexivity|]. split; [|apply Hid].
    subst n.
    pose proof (Z.div_mod (30 - (30 + 3600 * hour + 1 - 120)) frequency
                  ltac:(lia)) as D.
    pose proof (Z.mod_pos_bound (30 - (30 + 3600 * hour + 1 - 120)) frequency Hf)
      as B.
    nia.
  - rewrite map_map.
    rewrite (map_ext _ (fun i : nat => Z.of_nat i + 30 / frequency))
      by (intros i; apply Hid).
    apply NoDup_List_map; [|apply NoDup_seq].
    intros a b Hab. lia.
Qed.

Lemma spawn_schedule_ids_witness :
  (forall (i : nat) (time : Z),
      [30; 1230; 2430] !! i = Some time ->
      time = 30 + Z.of_nat i * 1200 /\
      30 <= time <= 30 + 3600 * 1 - 120 /\
      vehicle_id time 1200 = Z.of_nat i + 30 / 1200) /\
  NoDup (map (fun time => vehicle_id time 1200) [30; 1230; 2430]).
Proof.
  apply (spawn_schedule_ids 1200 1 [30; 1230; 2430]); reflexivity.
Defined.

(** *** Running the store operations *)

Lemma run_bind {A B : Type} (m : M A) (f : A -> M B)
    (h h' : gmap positive DataFrame) (a : A) :
  m h = (h', Done a) -> bind m f h = f a h'.
Proof. intros E. unfold bind. rewrite E. reflexivity. Qed.

Lemma run_bind_raise {A B : Type} (m : M A) (f : A -> M B)
    (h h' : gmap positive DataFrame) (e : string) :
  m h = (h', Raise e) -> bind m f h = (h', Raise e).
Proof. intros E. unfold bind. rewrite E. reflexivity. Qed.

Lemma fresh_unused (h : gmap positive DataFrame) : h !! fresh (dom h) = None.
Proof. apply not_elem_of_dom, is_fresh. Qed.

Lemma run_read (h : gmap positive DataFrame) (l : positive) (df : DataFrame) :
  h !! l = Some df -> df_read l h = (h, Done df).
Proof. intros E. unfold df_read. rewrite E. reflexivity. Qed.

Lemma run_write (h : gmap positive DataFrame) (l : positive)
    (old df : DataFrame) :
  h !! l = Some old -> df_write l df h = (<[l := df]> h, Done tt).
Proof. intros E. unfold df_write. rewrite E. reflexivity. Qed.

Lemma run_copy (h : gmap positive DataFrame) (l : positive) (df : DataFrame) :
  h !! l = Some df ->
  df_copy l h = (<[fresh (dom h) := df]> h, Done (fresh (dom h))).
Proof.
  intros E. unfold df_copy.
  rewrite (run_bind _ _ h h df (run_read h l df E)). reflexivity.
Qed.

Lemma run_set_columns (h : gmap positive DataFrame) (l : positive)
    (df : DataFrame) (names : list string) :
  h !! l = Some df -> length names = length (columns df) ->
  df_set_columns l names h = (<[l := mkDF names (rows df)]> h, Done tt).
Proof.
  intros E Hlen. unfold df_set_columns.
  rewrite (run_bind _ _ h h df (run_read h l df E)).
  rewrite Hlen, Nat.eqb_refl. apply (run_write h l df). exact E.
Qed.

Lemma run_set_columns_mismatch (h : gmap positive DataFrame) (l : positive)
    (df : DataFrame) (names : list string) :
  h !! l = Some df -> length names <> length (columns df) ->
  df_set_columns l names h = (h, Raise "ValueError: Length mismatch").
Proof.
  intros E Hlen. unfold df_set_columns.
  rewrite (run_bind _ _ h h df (run_read h l df E)).
  apply Nat.eqb_neq in Hlen. rewrite Hlen. reflexivity.
Qed.

Lemma run_map_column (h : gmap positive DataFrame) (l : positive)
    (df : DataFrame) (name : string) (i : nat) (f : float -> float) :
  h !! l = Some df -> index_of name (columns df) = Some i ->
  df_map_column l name f h
  = (<[l := mkDF (columns df)
             (map (fun r => set_cell r i (f (cell r i))) (rows df))]> h,
     Done tt).
Proof.
  intros E Hi. unfold df_map_column.
  rewrite (run_bind _ _ h h df (run_read h l df E)).
  rewrite Hi. apply (run_write h l df). exact E.
Qed.

(** The three opening statements of [gen_all_VT] on a six-column table. *)
Lemma fleet_setup {B : Type} (k : positive -> M B)
    (h : gmap positive DataFrame) (smooth_speed : positive) (df : DataFrame) :
  h !! smooth_speed = Some df -> length (columns df) = 6%nat ->
  (do smooth_vt <- df_copy smooth_speed;
   df_set_columns smooth_vt
     ["t_index"; "x_index"; "raw_speed"; "t"; "x"; "speed"]%string ;;
   df_map_column smooth_vt "x" (fsub (Some 63%Q)) ;;
   k smooth_vt) h
  = k (fresh (dom h)) (<[fresh (dom h) := smooth_vt_frame df]> h).
Proof.
  intros E Hlen. set (l := fresh (dom h)).
  rewrite (run_bind _ _ h _ _ (run_copy h smooth_speed df E)). fold l.
  rewrite (run_bind _ _ _ _ _
             (run_set_columns (<[l := df]> h) l df
                ["t_index"; "x_index"; "raw_speed"; "t"; "x"; "speed"]%string
                (lookup_insert_eq h l df) (eq_sym Hlen))).
  rewrite insert_insert_eq.
  rewrite (run_bind _ _ _ _ _
             (run_map_column
                (<[l := mkDF ["t_index"; "x_index"; "raw_speed"; "t"; "x"; "speed"]%string
                          (rows df)]> h)
                l _ "x" 4 (fsub (Some 63%Q))
                (lookup_insert_eq h l _) eq_refl)).
  rewrite insert_insert_eq. reflexivity.
Qed.

(** X17. On a table that does not have exactly six columns [gen_all_VT]
    raises the length-mismatch error of the relabelling; at that point the
    store holds the unmodified copy besides the caller's objects. *)
Theorem gen_all_VT_wrong_column_count
    (griddata : list float * list float -> list float -> float * float -> float)
    (fuel : nat) (smooth_speed : positive) (frequency hour : Z) (traj_hz : Q)
    (h : gmap positive DataFrame) (df : DataFrame) :
  h !! smooth_speed = Some df -> length (columns df) <> 6%nat ->
  gen_all_VT griddata fuel smooth_speed frequency hour traj_hz h
  = (<[fresh (dom h) := df]> h, Raise "ValueError: Length mismatch").
Proof.
  intros E Hlen. unfold gen_all_VT; cbv zeta.
  rewrite (run_bind _ _ h _ _ (run_copy h smooth_speed df E)).
  apply run_bind_raise.
  apply (run_set_columns_mismatch _ _ df).
  - apply lookup_insert_eq.
  - simpl. intros H. apply Hlen. symmetry. exact H.
Qed.

Lemma gen_all_VT_wrong_column_count_witness :
  gen_all_VT uniform_griddata 10 1%positive 300 1 1
    {[ 1%positive := mkDF ["t"; "x"; "speed"]%string [] ]}
  = (<[fresh (dom ({[ 1%positive := mkDF ["t"; "x"; "speed"]%string [] ]}
                     : gmap positive DataFrame))
       := mkDF ["t"; "x"; "speed"]%string []]>
       {[ 1%positive := mkDF ["t"; "x"; "speed"]%string [] ]},
     Raise "ValueError: Length mismatch").
Proof.
  apply (gen_all_VT_wrong_column_count uniform_griddata 10 1%positive 300 1 1
           {[ 1%positive := mkDF ["t"; "x"; "speed"]%string [] ]}
           (mkDF ["t"; "x"; "speed"]%string [])).
  - reflexivity.
  - discriminate.
Defined.

(** X18. On a six-column table, a zero spawn frequency raises in
    [np.arange]; a duration too short for any spawn time (3600 * hour < 120,
    positive frequency) raises in [pd.concat], which gets an empty list; and
    with at least one spawn time a zero [traj_hz] raises in [1/traj_hz]. *)
Theorem gen_all_VT_degenerate_arguments
    (griddata : list float * list float -> list float -> float * float -> float)
    (fuel : nat) (smooth_speed : positive) (frequency hour : Z) (traj_hz : Q)
    (h : gmap positive DataFrame) (df : DataFrame) :
  h !! smooth_speed = Some df -> length (columns df) = 6%nat ->
  (frequency = 0 ->
   snd (gen_all_VT griddata fuel smooth_speed frequency hour traj_hz h)
   = Raise "ZeroDivisionError") /\
  (0 < frequency -> 3600 * hour < 120 ->
   snd (gen_all_VT griddata fuel smooth_speed frequency hour traj_hz h)
   = Raise "ValueError: No objects to concatenate") /\
  (0 < frequency -> 120 <= 3600 * hour -> (traj_hz == 0)%Q ->
   snd (gen_all_VT griddata fuel smooth_speed frequency hour traj_hz h)
   = Raise "ZeroDivisionError").
Proof.
  intros E Hlen. unfold gen_all_VT; cbv zeta.
  rewrite (fleet_setup _ h smooth_speed df E Hlen).
  set (l := fresh (dom h)). set (h2 := <[l := smooth_vt_frame df]> h).
  split; [|split].
  - intros ->. reflexivity.
  - intros Hf Hh. unfold np_arange.
    destruct (frequency =? 0) eqn:E0; [apply Z.eqb_eq in E0; lia|].
    assert (Hn : Z.to_nat (- ((30 - (30 + 3600 * hour + 1 - 120)) / frequency))
                 = 0%nat).
    { assert (0 <= (30 - (30 + 3600 * hour + 1 - 120)) / frequency)
        by (apply Z.div_pos; lia).
      lia. }
    rewrite Hn. reflexivity.
  - intros Hf Hh Hz. unfold np_arange.
    destruct (frequency =? 0) eqn:E0; [apply Z.eqb_eq in E0; lia|].
    destruct (Z.to_nat (- ((30 - (30 + 3600 * hour + 1 - 120)) / frequency)))
      as [|n] eqn:Hn.
    + exfalso.
      assert ((30 - (30 + 3600 * hour + 1 - 120)) / frequency < 0)
        by (apply Z.div_lt_upper_bound; lia).
      lia.
    + unfold bind at 1. unfold lift at 1. simpl seq. simpl map.
      unfold spawn_all, spawn, bind, lift, rate_of_hz.
      apply Qeq_bool_iff in Hz. rewrite Hz. reflexivity.
Qed.

Lemma gen_all_VT_degenerate_arguments_witness :
  snd (gen_all_VT uniform_griddata 10 1%positive 0 1 1
         {[ 1%positive := small_frame ]})
  = Raise "ZeroDivisionError" /\
  snd (gen_all_VT uniform_griddata 10 1%positive 300 0 1
         {[ 1%positive := small_frame ]})
  = Raise "ValueError: No objects to concatenate" /\
  snd (gen_all_VT uniform_griddata 10 1%positive 300 1 0
         {[ 1%positive := small_frame ]})
  = Raise "ZeroDivisionError".
Proof.
  assert (E : ({[ 1%positive := small_frame ]} : gmap positive DataFrame)
              !! 1%positive = Some small_frame) by reflexivity.
  assert (L : length (columns small_frame) = 6%nat) by reflexivity.
  split; [|split].
  - apply (proj1 (gen_all_VT_degenerate_arguments uniform_griddata 10
             1%positive 0 1 1 _ small_frame E L)).
    reflexivity.
  - apply (proj1 (proj2 (gen_all_VT_degenerate_arguments uniform_griddata 10
             1%positive 300 0 1 _ small_frame E L))); reflexivity.
  - apply (proj2 (proj2 (gen_all_VT_degenerate_arguments uniform_griddata 10
             1%positive 300 1 0 _ small_frame E L)));
      first [reflexivity | lia].
Defined.

(** *** What the fleet generator returns *)

Lemma run_lift {A : Type} (r : res A) (h : gmap positive DataFrame) :
  lift r h = (h, r).
Proof. reflexivity. Qed.

Lemma run_field (h : gmap positive DataFrame) (l : positive) (df : DataFrame) :
  h !! l = Some df ->
  columns df = ["t_index"; "x_index"; "raw_speed"; "t"; "x"; "speed"]%string ->
  df_field l h = (h, Done (frame_field df)).
Proof.
  intros E Hc. unfold df_field.
  rewrite (run_bind _ _ h h df (run_read h l df E)).
  rewrite Hc. reflexivity.
Qed.

Lemma vehicle_rows_reflect (traj : list Sample) :
  map (fun r => set_cell r 1 (fsub (Some 63%Q) (cell r 1)))
      (rows (frame_of_traj traj))
  = vehicle_rows traj.
Proof.
  unfold vehicle_rows, frame_of_traj. simpl rows. rewrite map_map.
  reflexivity.
Qed.

(** One pass of the [for] loop whose integrator call returns. *)
Lemma run_spawn
    (griddata : list float * list float -> list float -> float * float -> float)
    (fuel : nat) (smooth_vt : positive) (sv : DataFrame) (frequency : Z)
    (traj_hz u : Q) (time : Z) (traj : list Sample)
    (h : gmap positive DataFrame) :
  h !! smooth_vt = Some sv ->
  columns sv = ["t_index"; "x_index"; "raw_speed"; "t"; "x"; "speed"]%string ->
  rate_of_hz traj_hz = Done u ->
  gen_VT griddata fuel (inject_Z time) (vehicle_id time frequency)
    (frame_field sv) u 0.32%Q = Done traj ->
  spawn griddata fuel smooth_vt frequency traj_hz time h
  = (<[fresh (dom h)
       := mkDF ["time"; "space"; "speed"; "v_id"]%string (vehicle_rows traj)]> h,
     Done (fresh (dom h))).
Proof.
  intros E Hc Hrate Hrun. unfold spawn; cbv zeta.
  set (l := fresh (dom h)).
  rewrite (run_bind (lift (rate_of_hz traj_hz)) _ h h u)
    by (rewrite run_lift, Hrate; reflexivity).
  rewrite (run_bind _ _ h h _ (run_field h smooth_vt sv E Hc)).
  rewrite (run_bind (lift _) _ h h traj)
    by (rewrite run_lift, Hrun; reflexivity).
  rewrite (run_bind (df_new (frame_of_traj traj)) _ h
             (<[l := frame_of_traj traj]> h) l) by reflexivity.
  destruct (gen_VT_head griddata _ _ _ _ _ _ _ Hrun) as (rest & Htraj).
  rewrite (run_bind _ _ _ _ _
             (run_set_columns (<[l := frame_of_traj traj]> h) l
                (frame_of_traj traj)
                ["time"; "space"; "speed"; "v_id"]%string
                (lookup_insert_eq h l _)
                ltac:(rewrite Htraj; reflexivity))).
  rewrite insert_insert_eq.
  rewrite (run_bind _ _ _ _ _
             (run_map_column
                (<[l := mkDF ["time"; "space"; "speed"; "v_id"]%string
                          (rows (frame_of_traj traj))]> h)
                l _ "space" 1 (fsub (Some 63%Q))
                (lookup_insert_eq h l _) eq_refl)).
  rewrite insert_insert_eq. cbn [columns rows].
  rewrite vehicle_rows_reflect. reflexivity.
Qed.

Lemma run_spawn_all
    (griddata : list float * list float -> list float -> float * float -> float)
    (fuel : nat) (smooth_vt : positive) (sv : DataFrame) (frequency : Z)
    (traj_hz u : Q) (times : list Z) (trajs : list (list Sample)) :
  columns sv = ["t_index"; "x_index"; "raw_speed"; "t"; "x"; "speed"]%string ->
  rate_of_hz traj_hz = Done u ->
  Forall2 (fun time traj =>
             gen_VT griddata fuel (inject_Z time) (vehicle_id time frequency)
               (frame_field sv) u 0.32%Q = Done traj) times trajs ->
  forall (h : gmap positive DataFrame) (vt_list : list positive),
    h !! smooth_vt = Some sv ->
    exists (h' : gmap positive DataFrame) (ls : list positive),
      spawn_all griddata fuel smooth_vt frequency traj_hz times vt_list h
      = (h', Done (vt_list ++ ls)) /\
      h ⊆ h' /\
      Forall (fun l => h !! l = None) ls /\
      Forall2 (fun l traj =>
                 h' !! l = Some (mkDF ["time"; "space"; "speed"; "v_id"]%string
                                   (vehicle_rows traj))) ls trajs.
Proof.
  intros Hc Hrate HF.
  induction HF as [|time traj times trajs Hrun _ IH]; intros h vt_list E.
  - exists h, []. simpl. rewrite app_nil_r.
    split; [reflexivity|]. split; [reflexivity|]. split; constructor.
  - simpl.
    rewrite (run_bind _ _ _ _ _
               (run_spawn griddata fuel smooth_vt sv frequency traj_hz u time
                  traj h E Hc Hrate Hrun)).
    set (l := fresh (dom h)).
    set (vf := mkDF ["time"; "space"; "speed"; "v_id"]%string (vehicle_rows traj)).
    pose proof (fresh_unused h) as Hl. fold l in Hl.
    assert (Hne : l <> smooth_vt) by (intros ->; congruence).
    assert (E1 : <[l := vf]> h !! smooth_vt = Some sv)
      by (rewrite lookup_insert_ne by exact Hne; exact E).
    destruct (IH (<[l := vf]> h) (vt_list ++ [l]) E1)
      as (h' & ls & Hrun' & Hsub & Hfresh & Hall).
    assert (Hsub0 : h ⊆ <[l := vf]> h) by (apply insert_subseteq; exact Hl).
    exists h', (l :: ls).
    split; [rewrite Hrun', <- app_assoc; reflexivity|].
    split; [etransitivity; eassumption|].
    split.
    + constructor; [exact Hl|].
      eapply List.Forall_impl; [|exact Hfresh].
      intros a Ha. simpl in Ha.
      exact (lookup_weaken_None h (<[l := vf]> h) a Ha Hsub0).
    + constructor; [|exact Hall].
      eapply lookup_weaken; [|exact Hsub]. apply lookup_insert_eq.
Qed.

Lemma run_read_all (h : gmap positive DataFrame) (ls : list positive)
    (dfs : list DataFrame) :
  Forall2 (fun l df => h !! l = Some df) ls dfs ->
  read_all ls h = (h, Done dfs).
Proof.
  induction 1 as [|l df ls dfs E _ IH]; simpl; [reflexivity|].
  rewrite (run_bind _ _ h h df (run_read h l df E)).
  rewrite (run_bind _ _ h h dfs IH). reflexivity.
Qed.

Lemma run_concat (h : gmap positive DataFrame) (ls : list positive)
    (df : DataFrame) (dfs : list DataFrame) :
  Forall2 (fun l d => h !! l = Some d) ls (df :: dfs) ->
  pd_concat ls h
  = (<[fresh (dom h) := mkDF (columns df) (concat (map rows (df :: dfs)))]> h,
     Done (fresh (dom h))).
Proof.
  intros HF. unfold pd_concat.
  rewrite (run_bind _ _ h h _ (run_read_all h ls _ HF)). reflexivity.
Qed.

(** A call whose integrator calls all return. *)
Lemma gen_all_VT_returns
    (griddata : list float * list float -> list float -> float * float -> float)
    (fuel : nat) (smooth_speed : positive) (frequency hour : Z) (traj_hz u : Q)
    (h : gmap positive DataFrame) (df : DataFrame)
    (times : list Z) (trajs : list (list Sample)) :
  h !! smooth_speed = Some df -> length (columns df) = 6%nat ->
  np_arange 30 (30 + 3600 * hour + 1 - 120) frequency = Done times ->
  times <> [] ->
  rate_of_hz traj_hz = Done u ->
  Forall2 (fun time traj =>
             gen_VT griddata fuel (inject_Z time) (vehicle_id time frequency)
               (frame_field (smooth_vt_frame df)) u 0.32%Q = Done traj)
    times trajs ->
  exists (h' : gmap positive DataFrame) (out : positive),
    gen_all_VT griddata fuel smooth_speed frequency hour traj_hz h
    = (h', Done out) /\
    h ⊆ h' /\ h !! out = None /\
    h' !! out = Some (mkDF ["time"; "space"; "speed"; "v_id"]%string
                        (concat (map vehicle_rows trajs))).
Proof.
  intros E Hlen Htimes Hne Hrate HF. unfold gen_all_VT; cbv zeta.
  rewrite (fleet_setup _ h smooth_speed df E Hlen).
  set (l := fresh (dom h)). set (h2 := <[l := smooth_vt_frame df]> h).
  pose proof (fresh_unused h) as Hl. fold l in Hl.
  assert (Hsub2 : h ⊆ h2) by (apply insert_subseteq; exact Hl).
  rewrite (run_bind (lift _) _ h2 h2 times)
    by (rewrite run_lift, Htimes; reflexivity).
  destruct (run_spawn_all griddata fuel l (smooth_vt_frame df) frequency
              traj_hz u times trajs eq_refl Hrate HF h2 []
              (lookup_insert_eq h l _))
    as (h3 & ls & Hrun & Hsub3 & _ & Hall).
  rewrite (run_bind _ _ _ _ _ Hrun). simpl app.
  destruct trajs as [|traj trajs].
  { inversion HF; subst. contradiction. }
  assert (Hframes : Forall2 (fun l d => h3 !! l = Some d) ls
            (map (fun traj =>
                    mkDF ["time"; "space"; "speed"; "v_id"]%string
                         (vehicle_rows traj)) (traj :: trajs))).
  { clear -Hall. induction Hall; simpl; constructor; assumption. }
  simpl map in Hframes.
  rewrite (run_bind _ _ _ _ _ (run_concat h3 ls _ _ Hframes)).
  pose proof (fresh_unused h3) as Hout.
  eexists _, _. split; [reflexivity|].
  split; [|split].
  - etransitivity; [exact Hsub2|]. etransitivity; [exact Hsub3|].
    apply insert_subseteq. exact Hout.
  - eapply lookup_weaken_None; [exact Hout|].
    etransitivity; eassumption.
  - rewrite lookup_insert_eq. cbn [columns]. f_equal. f_equal.
    simpl. rewrite map_map. reflexivity.
Qed.

(** X19. When the table has six columns, there is at least one spawn time
    and every integrator call returns, [gen_all_VT] returns a new table with
    the labels [time], [space], [speed], [v_id] whose rows are the
    trajectories of the vehicles in spawn order, each row holding the
    sample's time, its position reflected back ([63 - space]), its speed and
    the vehicle id [int(time / frequency)]; the integrator saw the table
    with its fifth column reflected. *)
Theorem gen_all_VT_result
    (griddata : list float * list float -> list float -> float * float -> float)
    (fuel : nat) (smooth_speed : positive) (frequency hour : Z) (traj_hz u : Q)
    (h : gmap positive DataFrame) (df : DataFrame)
    (times : list Z) (trajs : list (list Sample)) :
  h !! smooth_speed = Some df -> length (columns df) = 6%nat ->
  np_arange 30 (30 + 3600 * hour + 1 - 120) frequency = Done times ->
  times <> [] ->
  rate_of_hz traj_hz = Done u ->
  Forall2 (fun time traj =>
             gen_VT griddata fuel (inject_Z time) (vehicle_id time frequency)
               (frame_field (smooth_vt_frame df)) u 0.32%Q = Done traj)
    times trajs ->
  exists (h' : gmap positive DataFrame) (out : positive),
    gen_all_VT griddata fuel smooth_speed frequency hour traj_hz h
    = (h', Done out) /\
    h ⊆ h' /\ h !! out = None /\
    h' !! out = Some (mkDF ["time"; "space"; "speed"; "v_id"]%string
                        (concat (map vehicle_rows trajs))).
Proof. apply gen_all_VT_returns. Qed.

(** One vehicle on the small table: its start is not spanned by the data. *)
Lemma gen_all_VT_result_witness :
  exists (h' : gmap positive DataFrame) (out : positive),
    gen_all_VT uniform_griddata 10 1%positive 4000 1 1
      {[ 1%positive := small_frame ]} = (h', Done out) /\
    ({[ 1%positive := small_frame ]} : gmap positive DataFrame) ⊆ h' /\
    ({[ 1%positive := small_frame ]} : gmap positive DataFrame) !! out = None /\
    h' !! out
    = Some (mkDF ["time"; "space"; "speed"; "v_id"]%string
              (concat (map vehicle_rows
                 [[mkSample 30 (Some 0.32%Q) NaN 0;
                   mkSample 31 NaN NaN 0]]))).
Proof.
  apply (gen_all_VT_result uniform_griddata 10 1%positive 4000 1 1
           1%Q {[ 1%positive := small_frame ]} small_frame [30]).
  - reflexivity.
  - reflexivity.
  - reflexivity.
  - discriminate.
  - vm_compute. reflexivity.
  - constructor; [|constructor]. vm_compute. reflexivity.
Defined.

(** [round(1/traj_hz, 2)] is taken on the binary64 quotient: 1/40 is a
    little above 0.025 and becomes 0.03, 1/200 a little above 0.005 and
    becomes 0.01; 1/8 is the tie 0.125 and becomes 0.12. *)
Example rate_of_hz_values :
  rate_of_hz 1 = Done 1%Q /\
  rate_of_hz 2 = Done (1 # 2)%Q /\
  (exists u, rate_of_hz 40 = Done u /\
             binary64_value (Prim2SF 0.03%float) = Some u) /\
  (exists u, rate_of_hz 200 = Done u /\
             binary64_value (Prim2SF 0.01%float) = Some u) /\
  (exists u, rate_of_hz 8 = Done u /\
             binary64_value (Prim2SF 0.12%float) = Some u) /\
  rate_of_hz 0 = Raise "ZeroDivisionError".
Proof.
  repeat split; try (vm_compute; reflexivity);
    (eexists; split; vm_compute; reflexivity).
Qed.

(** *** A returned call *)

(** One pass of the [for] loop whose integrator call does not return. *)
Lemma run_spawn_stuck
    (griddata : list float * list float -> list float -> float * float -> float)
    (fuel : nat) (smooth_vt : positive) (sv : DataFrame) (frequency : Z)
    (traj_hz u : Q) (time : Z) (h : gmap positive DataFrame) :
  h !! smooth_vt = Some sv ->
  columns sv = ["t_index"; "x_index"; "raw_speed"; "t"; "x"; "speed"]%string ->
  rate_of_hz traj_hz = Done u ->
  (forall traj,
      gen_VT griddata fuel (inject_Z time) (vehicle_id time frequency)
        (frame_field sv) u 0.32%Q <> Done traj) ->
  forall vt,
    snd (spawn griddata fuel smooth_vt frequency traj_hz time h) <> Done vt.
Proof.
  intros E Hc Hrate Hno vt. unfold spawn; cbv zeta.
  rewrite (run_bind (lift (rate_of_hz traj_hz)) _ h h u)
    by (rewrite run_lift, Hrate; reflexivity).
  rewrite (run_bind _ _ h h _ (run_field h smooth_vt sv E Hc)).
  unfold bind at 1. rewrite run_lift.
  destruct (gen_VT griddata fuel (inject_Z time) (vehicle_id time frequency)
              (frame_field sv) u 0.32%Q) as [traj|e|] eqn:G.
  - exfalso. exact (Hno traj eq_refl).
  - discriminate.
  - discriminate.
Qed.

(** When the [for] loop completes, every integrator call has returned. *)
Lemma spawn_all_inv
    (griddata : list float * list float -> list float -> float * float -> float)
    (fuel : nat) (smooth_vt : positive) (sv : DataFrame) (frequency : Z)
    (traj_hz u : Q) (times : list Z) :
  columns sv = ["t_index"; "x_index"; "raw_speed"; "t"; "x"; "speed"]%string ->
  rate_of_hz traj_hz = Done u ->
  forall (h h' : gmap positive DataFrame) (vt_list ls : list positive),
    h !! smooth_vt = Some sv ->
    spawn_all griddata fuel smooth_vt frequency traj_hz times vt_list h
    = (h', Done ls) ->
    exists trajs,
      Forall2 (fun time traj =>
                 gen_VT griddata fuel (inject_Z time) (vehicle_id time frequency)
                   (frame_field sv) u 0.32%Q = Done traj) times trajs.
Proof.
  intros Hc Hrate.
  induction times as [|time times IH]; intros h h' vt_list ls E Hrun.
  - exists []. constructor.
  - destruct (gen_VT griddata fuel (inject_Z time) (vehicle_id time frequency)
                (frame_field sv) u 0.32%Q) as [traj|e|] eqn:G.
    + simpl in Hrun.
      rewrite (run_bind _ _ _ _ _
                 (run_spawn griddata fuel smooth_vt sv frequency traj_hz u time
                    traj h E Hc Hrate G)) in Hrun.
      set (l := fresh (dom h)) in *.
      pose proof (fresh_unused h) as Hl. fold l in Hl.
      assert (Hne : l <> smooth_vt) by (intros ->; congruence).
      assert (E1 : <[l := mkDF ["time"; "space"; "speed"; "v_id"]%string
                            (vehicle_rows traj)]> h !! smooth_vt = Some sv)
        by (rewrite lookup_insert_ne by exact Hne; exact E).
      destruct (IH _ _ _ _ E1 Hrun) as (trajs & HF).
      exists (traj :: trajs). constructor; assumption.
    + exfalso. simpl in Hrun. unfold bind at 1 in Hrun.
      pose proof (run_spawn_stuck griddata fuel smooth_vt sv frequency traj_hz
                    u time h E Hc Hrate) as Hstuck.
      destruct (spawn griddata fuel smooth_vt frequency traj_hz time h)
        as [h1 [vt|e'|]]; try discriminate.
      apply (Hstuck ltac:(intros traj; rewrite G; discriminate) vt). reflexivity.
    + exfalso. simpl in Hrun. unfold bind at 1 in Hrun.
      pose proof (run_spawn_stuck griddata fuel smooth_vt sv frequency traj_hz
                    u time h E Hc Hrate) as Hstuck.
      destruct (spawn griddata fuel smooth_vt frequency traj_hz time h)
        as [h1 [vt|e'|]]; try discriminate.
      apply (Hstuck ltac:(intros traj; rewrite G; discriminate) vt). reflexivity.
Qed.

(** A returned call of [gen_all_VT] went through every statement: the table
    has six columns, there is at least one spawn time, the update rate is a
    number and every integrator call returned. *)
Lemma gen_all_VT_inv
    (griddata : list float * list float -> list float -> float * float -> float)
    (fuel : nat) (smooth_speed : positive) (frequency hour : Z) (traj_hz : Q)
    (h h' : gmap positive DataFrame) (df : DataFrame) (out : positive) :
  h !! smooth_speed = Some df ->
  gen_all_VT griddata fuel smooth_speed frequency hour traj_hz h
  = (h', Done out) ->
  exists (times : list Z) (u : Q) (trajs : list (list Sample)),
    length (columns df) = 6%nat /\
    np_arange 30 (30 + 3600 * hour + 1 - 120) frequency = Done times /\
    times <> [] /\
    rate_of_hz traj_hz = Done u /\
    Forall2 (fun time traj =>
               gen_VT griddata fuel (inject_Z time) (vehicle_id time frequency)
                 (frame_field (smooth_vt_frame df)) u 0.32%Q = Done traj)
      times trajs.
Proof.
  intros E Hrun.
  destruct (Nat.eq_dec (length (columns df)) 6%nat) as [Hlen|Hlen].
  2:{ exfalso. unfold gen_all_VT in Hrun; cbv zeta in Hrun.
      rewrite (run_bind _ _ h _ _ (run_copy h smooth_speed df E)) in Hrun.
      rewrite (run_bind_raise _ _ _ _ _
                 (run_set_columns_mismatch _ _ df
                    ["t_index"; "x_index"; "raw_speed"; "t"; "x"; "speed"]%string
                    (lookup_insert_eq _ _ _)
                    ltac:(simpl; intros H; apply Hlen; symmetry; exact H)))
        in Hrun.
      discriminate. }
  unfold gen_all_VT in Hrun; cbv zeta in Hrun.
  rewrite (fleet_setup _ h smooth_speed df E Hlen) in Hrun.
  set (l := fresh (dom h)) in *.
  set (h2 := <[l := smooth_vt_frame df]> h) in *.
  destruct (np_arange 30 (30 + 3600 * hour + 1 - 120) frequency)
    as [times|e|] eqn:A;
    [|exfalso; unfold bind at 1 in Hrun; rewrite run_lift in Hrun;
      discriminate ..].
  rewrite (run_bind (lift _) _ h2 h2 times) in Hrun
    by (rewrite run_lift; reflexivity).
  destruct times as [|time times].
  { exfalso. unfold spawn_all, bind, ret, pd_concat, read_all, lift in Hrun.
    discriminate. }
  destruct (rate_of_hz traj_hz) as [u|e|] eqn:R;
    [|exfalso; unfold spawn_all, spawn, bind, lift in Hrun; rewrite R in Hrun;
      discriminate ..].
  destruct (spawn_all griddata fuel l frequency traj_hz (time :: times) [] h2)
    as [h3 [ls|e|]] eqn:S;
    [|exfalso; unfold bind at 1 in Hrun; rewrite S in Hrun; discriminate ..].
  destruct (spawn_all_inv griddata fuel l (smooth_vt_frame df) frequency
              traj_hz u (time :: times) eq_refl R h2 h3 [] ls
              (lookup_insert_eq h l _) S) as (trajs & HF).
  exists (time :: times), u, trajs. repeat split; try assumption. discriminate.
Qed.

(** The variant of VT.py is the fleet generator with [traj_hz = 1]. *)
Lemma bind_ext {A B : Type} (m : M A) (f g : A -> M B)
    (h : gmap positive DataFrame) :
  (forall a h1, f a h1 = g a h1) -> bind m f h = bind m g h.
Proof.
  intros H. unfold bind. destruct (m h) as [h1 [a|e|]]; [apply H| |]; reflexivity.
Qed.

Lemma VTpy_spawn_run
    (griddata : list float * list float -> list float -> float * float -> float)
    (fuel : nat) (smooth_vt : positive) (frequency time : Z)
    (h : gmap positive DataFrame) :
  VTpy_spawn griddata fuel smooth_vt frequency time h
  = spawn griddata fuel smooth_vt frequency 1 time h.
Proof.
  assert (R : rate_of_hz 1 = Done 1%Q) by (vm_compute; reflexivity).
  unfold VTpy_spawn, spawn; cbv zeta.
  rewrite (run_bind (lift (rate_of_hz 1)) _ h h 1%Q)
    by (rewrite run_lift, R; reflexivity).
  reflexivity.
Qed.

Lemma VTpy_spawn_all_run
    (griddata : list float * list float -> list float -> float * float -> float)
    (fuel : nat) (smooth_vt : positive) (frequency : Z) (times : list Z) :
  forall (vt_list : list positive) (h : gmap positive DataFrame),
    VTpy_spawn_all griddata fuel smooth_vt frequency times vt_list h
    = spawn_all griddata fuel smooth_vt frequency 1 times vt_list h.
Proof.
  induction times as [|time times IH]; intros vt_list h; simpl; [reflexivity|].
  unfold bind. rewrite VTpy_spawn_run.
  destruct (spawn griddata fuel smooth_vt frequency 1 time h) as [h1 [vt|e|]];
    [apply IH| |]; reflexivity.
Qed.

Lemma VTpy_gen_all_VT_run
    (griddata : list float * list float -> list float -> float * float -> float)
    (fuel : nat) (smooth_speed : positive) (frequency hour : Z)
    (h : gmap positive DataFrame) :
  VTpy_gen_all_VT griddata fuel smooth_speed frequency hour h
  = gen_all_VT griddata fuel smooth_speed frequency hour 1 h.
Proof.
  unfold VTpy_gen_all_VT, gen_all_VT; cbv zeta.
  apply bind_ext; intros smooth_vt h1.
  apply bind_ext; intros _ h2.
  apply bind_ext; intros _ h3.
  apply bind_ext; intros times h4.
  unfold bind at 1 3. rewrite VTpy_spawn_all_run. reflexivity.
Qed.

(** One hour with a spawn every 300 s: what a returned call holds. *)
Lemma fleet_300_1_returned
    (griddata : list float * list float -> list float -> float * float -> float)
    (fuel : nat) (smooth_speed : positive) (traj_hz : Q)
    (h h' : gmap positive DataFrame) (df : DataFrame) (out : positive) :
  h !! smooth_speed = Some df ->
  gen_all_VT griddata fuel smooth_speed 300 1 traj_hz h = (h', Done out) ->
  exists u, rate_of_hz traj_hz = Done u /\
            fleet_300_1 griddata fuel df u h' out.
Proof.
  intros E Hrun.
  destruct (gen_all_VT_inv griddata fuel smooth_speed 300 1 traj_hz h h' df out
              E Hrun) as (times & u & trajs & Hlen & A & Hne & R & HF).
  exists u. split; [exact R|].
  destruct (gen_all_VT_returns griddata fuel smooth_speed 300 1 traj_hz u h df
              times trajs E Hlen A Hne R HF)
    as (h'' & out'' & Hrun' & _ & _ & Hout).
  rewrite Hrun in Hrun'. injection Hrun' as <- <-.
  vm_compute in A. injection A as <-.
  pose proof (Forall2_length _ _ _ HF) as Hl. simpl in Hl.
  exists trajs. split; [symmetry; exact Hl|].
  split; [rewrite <- Hl; reflexivity|]. split; [|exact Hout].
  intros k traj Hk.
  destruct (Forall2_lookup_r _ _ _ _ _ HF Hk) as (time & Ht & Hgen).
  pose proof (gen_VT_head griddata _ _ _ _ _ _ _ Hgen) as (rest & Hhead).
  pose proof (gen_VT_carries_id griddata _ _ _ _ _ _ _ Hgen) as Hids.
  do 12 (destruct k as [|k];
         [injection Ht as <-;
          split; [split; discriminate|];
          split; [reflexivity|];
          split; [exact Hgen|];
          split; [eexists _, rest; exact Hhead|exact Hids]|]).
  discriminate.
Qed.

(** C8. With [frequency = 300] and [hour = 1], a returned call of the fleet
    generator (either variant) has spawned exactly twelve vehicles,
    [(3600 - 120 - 30) / 300 + 1] of them, one for each spawn time
    30, 330, ..., 3330 of [30, 30 + 3600 - 120]: the result holds their
    trajectories in spawn order, vehicle [k] was integrated from the time
    [30 + 300 k] with the id [int(time / 300) = k], and all its rows carry
    that id. *)
Theorem fleet_300_1_vehicles
    (griddata : list float * list float -> list float -> float * float -> float)
    (fuel : nat) (smooth_speed : positive) (traj_hz : Q)
    (h : gmap positive DataFrame) (df : DataFrame) :
  h !! smooth_speed = Some df ->
  (np_arange 30 (30 + 3600 * 1 + 1 - 120) 300
   = Done [30; 330; 630; 930; 1230; 1530; 1830; 2130; 2430; 2730; 3030; 3330] /\
   map (fun time => vehicle_id time 300)
     [30; 330; 630; 930; 1230; 1530; 1830; 2130; 2430; 2730; 3030; 3330]
   = [0; 1; 2; 3; 4; 5; 6; 7; 8; 9; 10; 11]) /\
  (forall (h' : gmap positive DataFrame) (out : positive),
      gen_all_VT griddata fuel smooth_speed 300 1 traj_hz h = (h', Done out) ->
      exists u, rate_of_hz traj_hz = Done u /\
                fleet_300_1 griddata fuel df u h' out) /\
  (forall (h' : gmap positive DataFrame) (out : positive),
      VTpy_gen_all_VT griddata fuel smooth_speed 300 1 h = (h', Done out) ->
      fleet_300_1 griddata fuel df 1 h' out).
Proof.
  intros E. split; [split; reflexivity|]. split.
  - intros h' out Hrun.
    exact (fleet_300_1_returned griddata fuel smooth_speed traj_hz h h' df out
             E Hrun).
  - intros h' out Hrun. rewrite VTpy_gen_all_VT_run in Hrun.
    destruct (fleet_300_1_returned griddata fuel smooth_speed 1 h h' df out
                E Hrun) as (u & R & H).
    assert (R1 : rate_of_hz 1 = Done 1%Q) by (vm_compute; reflexivity).
    rewrite R1 in R. injection R as <-. exact H.
Qed.

(** A one-hour fleet on a table with data around every spawn time: both
    variants return, each vehicle with four samples. *)
Lemma fleet_300_1_vehicles_witness :
  exists (h1 h2 : gmap positive DataFrame) (out1 out2 : positive) (u : Q),
    gen_all_VT uniform_griddata 5 1%positive 300 1 1
      {[ 1%positive := fleet_frame ]} = (h1, Done out1) /\
    VTpy_gen_all_VT uniform_griddata 5 1%positive 300 1
      {[ 1%positive := fleet_frame ]} = (h2, Done out2) /\
    rate_of_hz 1 = Done u /\
    fleet_300_1 uniform_griddata 5 fleet_frame u h1 out1 /\
    fleet_300_1 uniform_griddata 5 fleet_frame 1 h2 out2.
Proof.
  assert (E : ({[ 1%positive := fleet_frame ]} : gmap positive DataFrame)
              !! 1%positive = Some fleet_frame) by reflexivity.
  destruct (fleet_300_1_vehicles uniform_griddata 5 1%positive 1
              {[ 1%positive := fleet_frame ]} fleet_frame E)
    as (_ & H1 & H2).
  eexists _, _, _, _.
  assert (R1 : gen_all_VT uniform_griddata 5 1%positive 300 1 1
                 {[ 1%positive := fleet_frame ]} = (_, Done _))
    by (vm_compute; reflexivity).
  assert (R2 : VTpy_gen_all_VT uniform_griddata 5 1%positive 300 1
                 {[ 1%positive := fleet_frame ]} = (_, Done _))
    by (vm_compute; reflexivity).
  destruct (H1 _ _ R1) as (u & R & F1).
  exists u. split; [exact R1|]. split; [exact R2|]. split; [exact R|].
  split; [exact F1|exact (H2 _ _ R2)].
Defined.

(** The first vehicle of that run: two steps at 60 mph inside the data, then
    a position outside of their time span. *)
Example fleet_run_300_1 :
  exists (h' : gmap positive DataFrame) (out : positive) (result : DataFrame),
    gen_all_VT uniform_griddata 5 1%positive 300 1 1
      {[ 1%positive := fleet_frame ]} = (h', Done out) /\
    h' !! out = Some result /\
    length (rows result) = 48%nat /\
    firstn 4 (rows result)
    = [[Some 30%Q; Some (63 - 0.32)%Q; Some 60%Q; Some 0%Q];
       [Some 31%Q; Some (63 - (0.32 + 1 * 60 / 3600))%Q; Some 60%Q; Some 0%Q];
       [Some 32%Q;
        Some (63 - (0.32 + 1 * 60 / 3600 + 1 * 60 / 3600))%Q; Some 60%Q;
        Some 0%Q];
       [Some 33%Q; NaN; NaN; Some 0%Q]].
Proof.
  eexists _, _, _.
  split; [vm_compute; reflexivity|].
  split; [vm_compute; reflexivity|].
  split; vm_compute; reflexivity.
Qed.

End Fleet_more.
